(** * arc-cre-api: the ARC Course Record Entry client

    A shallow embedding of the two client implementations of the repository,

    - [Lib]   : src/lib/ArcCre.js  (fixed https scheme, path [/v{n}], CRLF),
    - [Part0] : src/unnamed/part_000 (protocol option, path
                [/course/recordentry/eapi/v{n}], LF, logging, 404 policy),

    together with the fragment of JavaScript both rely on: primitive values,
    string conversion, [Array.prototype.join], plain objects as finite maps,
    lodash's [_.defaults], and exceptions. *)

From Stdlib Require Import ZArith String Ascii List DecimalString.
From stdpp Require Import gmap strings.
Import ListNotations.

Local Open Scope string_scope.
Local Open Scope Z_scope.

(** ** The JavaScript fragment *)

Module Js.

(** Primitive values.  [VNum] holds the safe integers (magnitude below 2^53),
    which JavaScript renders as their plain decimal digits; beyond that range
    not every integer is a number and the rendering changes (shortest
    round-trip digits, exponent form from 1e21).  The clients only ever format
    identifiers, versions and status codes. *)
Inductive value : Type :=
| VUndefined
| VNull
| VBool (b : bool)
| VNum (n : Z)
| VStr (s : string).

Definition value_eqb (a b : value) : bool :=
  match a, b with
  | VUndefined, VUndefined => true
  | VNull, VNull => true
  | VBool x, VBool y => Bool.eqb x y
  | VNum x, VNum y => Z.eqb x y
  | VStr x, VStr y => String.eqb x y
  | _, _ => false
  end.

(** A plain object: own string-keyed properties. *)
Abbreviation obj := (gmap string value).

(** [o.k]: reading a property that is not there gives [undefined]. *)
Definition get (o : obj) (k : string) : value :=
  match o !! k with
  | Some v => v
  | None => VUndefined
  end.

(** ToBoolean. *)
Definition truthy (v : value) : bool :=
  match v with
  | VUndefined | VNull => false
  | VBool b => b
  | VNum n => negb (n =? 0)
  | VStr s => negb (String.eqb s "")
  end.

(** [a || b]. *)
Definition or_else (a b : value) : value := if truthy a then a else b.

Definition num_to_string (n : Z) : string :=
  NilZero.string_of_int (Z.to_int n).

(** ToString, as applied by template literals and by [+] with a string. *)
Definition to_string (v : value) : string :=
  match v with
  | VUndefined => "undefined"
  | VNull => "null"
  | VBool true => "true"
  | VBool false => "false"
  | VNum n => num_to_string n
  | VStr s => s
  end.

(** The per-element conversion of [Array.prototype.join]: [undefined] and
    [null] elements render as the empty string. *)
Definition join_item (v : value) : string :=
  match v with
  | VUndefined | VNull => ""
  | _ => to_string v
  end.

(** [strs.join(sep)] on an array of strings. *)
Fixpoint join_strings (sep : string) (strs : list string) : string :=
  match strs with
  | [] => ""
  | [s] => s
  | s :: rest => s ++ sep ++ join_strings sep rest
  end.

(** [vals.join(sep)]. *)
Definition join (sep : string) (vals : list value) : string :=
  join_strings sep (List.map join_item vals).

(** [s.substring(0, 1)]. *)
Definition first_char (s : string) : string :=
  match s with
  | EmptyString => ""
  | String c _ => String c EmptyString
  end.

(** [_.compact(vals)]: drops the falsy entries. *)
Definition compact (vals : list value) : list value :=
  List.filter truthy vals.

(** lodash [_.defaults(object, source)] on a plain destination object:
    every source property whose destination value is [undefined] (absent,
    or present and [undefined]) is assigned from the source. *)
Definition defaults (object source : obj) : obj :=
  merge (fun dst src =>
           match dst, src with
           | Some VUndefined, Some v => Some v
           | Some d, _ => Some d
           | None, s => s
           end) object source.

End Js.
Import Js.

(** ** HTTP plumbing shared by both clients *)

(** The upstream response as the transport hands it over.  The body is opaque
    to the client.  [request_path] is [response.request.path]; [None] stands
    for a response without a [request] object, on which that read raises. *)
Module Response.
Record t (Body : Type) : Type := mk
  { status : Z;
    statusText : string;
    data : Body;
    request_path : option value }.
Arguments mk {Body}.
Arguments status {Body}.
Arguments statusText {Body}.
Arguments data {Body}.
Arguments request_path {Body}.
End Response.

(** A thrown JavaScript error object: the transport's errors (which carry
    [response] when the upstream answered), the errors the client creates
    (which carry [code] and [meta]), and the runtime's [TypeError]s. *)
Module Err.
Record t (Body : Type) : Type := mk
  { name : string;
    message : string;
    response : option (Response.t Body);
    code : value;
    meta : option Body }.
Arguments mk {Body}.
Arguments name {Body}.
Arguments message {Body}.
Arguments response {Body}.
Arguments code {Body}.
Arguments meta {Body}.

(** What reading a property of [undefined] raises. *)
Definition TypeError {Body} (property : string) : t Body :=
  mk "TypeError"
     ("Cannot read properties of undefined (reading '" ++ property ++ "')")
     None VUndefined None.
End Err.

(** The [headers] slot of a request description: the callers pass
    [undefined], [null] or an object. *)
Inductive header_slot : Type :=
| HUndefined
| HNull
| HObject (h : obj).

(** The request description handed to axios. *)
Module Config.
Record t : Type := mk
  { method : string;
    url : value;
    params : obj;
    data : value;
    headers : header_slot;
    timeout : value }.
End Config.

(** Completion of a call: a value, or a thrown error. *)
Inductive outcome (E A : Type) : Type :=
| Return (a : A)
| Throw (e : E).
Arguments Return {E A}.
Arguments Throw {E A}.

(** What a call does to the outside world, in order. *)
Inductive event : Type :=
| Dispatch (config : Config.t)
| LogCall (level line : string).

(** Calls run in a writer-over-exception monad: the events so far and the
    completion. *)
Definition M (Body A : Type) : Type := (list event * outcome (Err.t Body) A)%type.

Definition ret {Body A} (a : A) : M Body A := ([], Return a).
Definition throw {Body A} (e : Err.t Body) : M Body A := ([], Throw e).
Definition emit {Body} (ev : event) : M Body unit := ([ev], Return tt).

Definition bind {Body A B} (m : M Body A) (k : A -> M Body B) : M Body B :=
  match m with
  | (tr, Return a) => let (tr', r) := k a in ((tr ++ tr')%list, r)
  | (tr, Throw e) => (tr, Throw e)
  end.

(** [try { m } catch (e) { handler e }]. *)
Definition try_catch {Body A} (m : M Body A) (handler : Err.t Body -> M Body A)
  : M Body A :=
  match m with
  | (tr, Return a) => (tr, Return a)
  | (tr, Throw e) => let (tr', r) := handler e in ((tr ++ tr')%list, r)
  end.

Notation "'let*' x ':=' m 'in' k" := (bind m (fun x => k))
  (at level 10, x name, m at level 100, k at level 200).
Notation "'do' m 'then' k" := (bind m (fun _ => k))
  (at level 10, m at level 100, k at level 200).

(** The HTTP transport (axios): it answers a request description with a
    response, or rejects. *)
Definition transport (Body : Type) : Type :=
  Config.t -> outcome (Err.t Body) (Response.t Body).

(** [await axios(config)]. *)
Definition dispatch {Body} (axios : transport Body) (config : Config.t)
  : M Body (Response.t Body) :=
  ([Dispatch config], axios config).

(** The constructor's [options] argument; an omitted option reads as
    [undefined]. *)
Module Options.
Record t : Type := mk
  { apiVersion : value;
    version : value;
    clientId : value;
    clientSecret : value;
    debug : value;
    host : value;
    sourceSystem : value;
    loggerConfig : option obj;
    logLevel : value;
    protocol : value;
    timeout : value }.

(** [{ }] *)
Definition empty : t :=
  mk VUndefined VUndefined VUndefined VUndefined VUndefined VUndefined
     VUndefined None VUndefined VUndefined VUndefined.
End Options.

Definition DELIMITER : string := "|".

Module RECORD_TYPES.
Definition INSTRUCTOR : string := "B".
Definition ORGANIZATION : string := "A".
Definition STUDENT : string := "C".
End RECORD_TYPES.

Definition CR : string := String "013"%char EmptyString.
Definition LF : string := String "010"%char EmptyString.
Definition QA_HOST : string :=
  "arc-course-record-entry-sf-eapi-qa.us-e1.cloudhub.io".

(** The literal [defaultHeaders] object of both [_request] routines. *)
Definition defaultHeaders (clientId clientSecret sourceSystem : value) : obj :=
  <["client_id" := clientId]>
    (<["client_secret" := clientSecret]>
       (<["Content-Type" := VStr "text/plain"]>
          (<["source_system" := sourceSystem]> ∅))).

(** ** src/lib/ArcCre.js *)

Module Lib.

Record client : Type := mkClient
  { name : string;
    apiVersion : value;
    clientId : value;
    clientSecret : value;
    debug : value;
    host : value;
    sourceSystem : value }.

Definition ArcCre (options : option Options.t) : client :=
  let options := match options with Some o => o | None => Options.empty end in
  {| name := "arcCre";
     apiVersion := or_else (Options.apiVersion options)
                     (or_else (Options.version options) (VNum 1));
     clientId := Options.clientId options;
     clientSecret := Options.clientSecret options;
     debug := or_else (Options.debug options) (VBool false);
     host := or_else (Options.host options) (VStr QA_HOST);
     sourceSystem := Options.sourceSystem options |}.

Definition _buildApiUrl (this : client) (endpoint : string) : string :=
  let endpoint :=
    if negb (String.eqb (first_char endpoint) "/") then "/" ++ endpoint
    else endpoint in
  "https://" ++ to_string (host this) ++ "/v"
    ++ (to_string (apiVersion this) ++ endpoint).

(** The loop of [createCRE]: one pass over [options], pushing a line for
    each record whose [type] is one of the three codes. *)
Definition createCRE_lines (organizationId batchId classId : value)
    (options : list obj) : list string :=
  fold_left
    (fun lines option =>
       let type := get option "type" in
       if value_eqb type (VStr RECORD_TYPES.ORGANIZATION) then
         let columns :=
           [ organizationId; batchId; classId; VStr RECORD_TYPES.ORGANIZATION;
             get option "organizationName"; get option "poAccountName";
             get option "productSKU"; get option "startDate";
             get option "endDate"; get option "numberOfStudents";
             get option "facilityName"; get option "address";
             get option "city"; get option "state"; get option "zipCode" ] in
         (lines ++ [join DELIMITER columns])%list
       else if value_eqb type (VStr RECORD_TYPES.INSTRUCTOR) then
         let columns :=
           [ organizationId; batchId; classId; VStr RECORD_TYPES.ORGANIZATION;
             get option "instructorID"; get option "firstName";
             get option "lastName"; get option "email" ] in
         (lines ++ [join DELIMITER columns])%list
       else if value_eqb type (VStr RECORD_TYPES.STUDENT) then
         let columns :=
           [ organizationId; batchId; classId; VStr RECORD_TYPES.ORGANIZATION;
             get option "firstName"; get option "lastName";
             get option "email"; get option "phoneNumber";
             get option "mastery"; get option "notes" ] in
         (lines ++ [join DELIMITER columns])%list
       else lines)
    options [].

(** [lines.join('\r\n')] *)
Definition createCRE_body (organizationId batchId classId : value)
    (options : list obj) : string :=
  join_strings (CR ++ LF)
    (createCRE_lines organizationId batchId classId options).

Section Requests.
Context {Body : Type} (axios : transport Body).

Definition _request (this : client) (config : Config.t) : M Body Body :=
  let defaultHeaders :=
    defaultHeaders (clientId this) (clientSecret this) (sourceSystem this) in
  (* _.defaults mutates an object destination in place; on [undefined]
     or [null] it fills a fresh object that is dropped. *)
  let config :=
    match Config.headers config with
    | HObject h =>
        Config.mk (Config.method config) (Config.url config)
          (Config.params config) (Config.data config)
          (HObject (defaults h defaultHeaders)) (Config.timeout config)
    | _ => config
    end in
  try_catch
    (let* response := dispatch axios config in
     ret (Response.data response))
    (fun e =>
       match Err.response e with
       | None => throw (Err.TypeError "status")
       | Some r =>
           let err :=
             Err.mk "Error"
               (num_to_string (Response.status r) ++ " - "
                  ++ to_string (Config.url config) ++ " failed")
               None
               (VNum (Response.status r))
               (Some (Response.data r)) in
           throw err
       end).

Definition _get (this : client) (endpoint : string) (params : option obj)
    (headers : header_slot) : M Body Body :=
  let options :=
    Config.mk "get" (VStr (_buildApiUrl this endpoint))
      (match params with Some p => p | None => ∅ end)
      VUndefined headers VUndefined in
  _request this options.

Definition _post (this : client) (endpoint : string) (params : option obj)
    (body : value) (headers : header_slot) : M Body Body :=
  let options :=
    Config.mk "post" (VStr (_buildApiUrl this endpoint))
      (match params with Some p => p | None => ∅ end)
      body headers VUndefined in
  _request this options.

Definition createCRE (this : client) (organizationId batchId classId : value)
    (options : list obj) : M Body Body :=
  let endpoint := "/cre" in
  let body := createCRE_body organizationId batchId classId options in
  _post this endpoint None (VStr body) HNull.

Definition getCRE (this : client) (offeringId : value) : M Body Body :=
  let endpoint := "/cre/" ++ to_string offeringId in
  _get this endpoint None HUndefined.

Definition ping (this : client) : M Body Body :=
  let endpoint := "/ping" in
  _get this endpoint None HUndefined.

End Requests.

End Lib.

(** ** src/unnamed/part_000 *)

Module Part0.

Section Client.
Context {Body : Type}.

(** A logger object, seen through the one thing the client does with it:
    [logger[level](line)] returns, or raises (also when the logger has no
    such method). *)
Definition Logger : Type := string -> string -> option (Err.t Body).

Record client : Type := mkClient
  { name : string;
    apiVersion : value;
    host : value;
    clientId : value;
    clientSecret : value;
    sourceSystem : value;
    logger : option Logger;
    loggerConfig : option obj;
    logLevel : value;
    protocol : value;
    timeout : value }.

Definition ArcCre (options : option Options.t) (logger : option Logger)
  : client :=
  let options := match options with Some o => o | None => Options.empty end in
  {| name := "arc-cre";
     apiVersion := or_else (Options.apiVersion options)
                     (or_else (Options.version options) (VNum 1));
     host := or_else (Options.host options) (VStr QA_HOST);
     clientId := Options.clientId options;
     clientSecret := Options.clientSecret options;
     sourceSystem := Options.sourceSystem options;
     logger := logger;
     loggerConfig := Options.loggerConfig options;
     logLevel := or_else (Options.logLevel options) (VStr "verbose");
     protocol := or_else (Options.protocol options) (VStr "https");
     timeout := or_else (Options.timeout options) (VNum (1000 * 60 * 3)) |}.

Definition _buildPath (this : client) (endpoint : string) : string :=
  let endpoint :=
    if negb (String.eqb (first_char endpoint) "/") then "/" ++ endpoint
    else endpoint in
  "/course/recordentry/eapi/v" ++ (to_string (apiVersion this) ++ endpoint).

Definition _buildScheme (this : client) : string :=
  to_string (protocol this) ++ "://" ++ to_string (host this).

Definition _buildApiUrl (this : client) (endpoint : string) : string :=
  _buildScheme this ++ _buildPath this endpoint.

(** The loop of [createCRE]. *)
Definition createCRE_lines (this : client)
    (organizationId batchId classId : value) (options : list obj)
  : list string :=
  fold_left
    (fun lines option =>
       let type := get option "type" in
       if value_eqb type (VStr RECORD_TYPES.ORGANIZATION) then
         let columns :=
           [ organizationId; batchId; classId;
             VStr RECORD_TYPES.ORGANIZATION; organizationId;
             sourceSystem this; get option "poAccountName";
             get option "productSKU"; get option "startDate";
             get option "endDate"; get option "numberOfStudents";
             get option "facilityName"; get option "address";
             get option "city"; get option "state";
             get option "zipCode" ] in
         (lines ++ [join DELIMITER columns])%list
       else if value_eqb type (VStr RECORD_TYPES.INSTRUCTOR) then
         let columns :=
           [ organizationId; batchId; classId;
             VStr RECORD_TYPES.INSTRUCTOR; get option "instructorID";
             get option "firstName"; get option "lastName";
             get option "email" ] in
         (lines ++ [join DELIMITER columns])%list
       else if value_eqb type (VStr RECORD_TYPES.STUDENT) then
         let columns :=
           [ organizationId; batchId; classId;
             VStr RECORD_TYPES.STUDENT; get option "firstName";
             get option "lastName"; get option "email";
             get option "phoneNumber"; get option "mastery";
             get option "notes" ] in
         (lines ++ [join DELIMITER columns])%list
       else lines)
    options [].

(** [lines.join('\n')] *)
Definition createCRE_body (this : client)
    (organizationId batchId classId : value) (options : list obj) : string :=
  join_strings LF (createCRE_lines this organizationId batchId classId options).

Context (axios : transport Body).
Context (JSON_stringify : value -> value).
Context (JSON_stringify_body : Body -> value).

(** [level] is the optional fourth argument [logLevel]: [undefined]
    selects the default [this.logLevel]. *)
Definition _writeLog (this : client) (endpoint : string)
    (axiosConfig : Config.t) (response : Response.t Body) (level : value)
  : M Body unit :=
  let logLevel :=
    match level with VUndefined => logLevel this | l => l end in
  match logger this with
  | None => ret tt
  | Some logger =>
      let logParts :=
        [ VStr ("[" ++ name this ++ ":" ++ to_string (host this) ++ "]");
          VStr (Config.method axiosConfig) ] in
      let* loggerConfig :=
        match loggerConfig this with
        | Some c => ret c
        | None => throw (Err.TypeError "url")
        end in
      let logParts :=
        (logParts ++ [ if truthy (get loggerConfig "url")
                       then VStr (_buildScheme this) else VNull ])%list in
      let* part :=
        if truthy (get loggerConfig "params") then
          match Response.request_path response with
          | Some path => ret path
          | None => throw (Err.TypeError "path")
          end
        else ret (VStr endpoint) in
      let logParts := (logParts ++ [ part ])%list in
      let logParts :=
        (logParts ++ [ if truthy (get loggerConfig "data")
                       then JSON_stringify (Config.data axiosConfig)
                       else VNull ])%list in
      let logParts :=
        (logParts ++ [ VStr (num_to_string (Response.status response) ++ " "
                               ++ Response.statusText response) ])%list in
      let logParts :=
        (logParts ++ [ if truthy (get loggerConfig "response")
                       then JSON_stringify_body (Response.data response)
                       else VNull ])%list in
      let log := join " " (compact logParts) in
      do emit (LogCall (to_string logLevel) log) then
      match logger (to_string logLevel) log with
      | None => ret tt
      | Some e => throw e
      end
  end.

(** The result is [None] for the literal [null] and [Some data] for
    [response.data]. *)
Definition _request (this : client) (endpoint : string) (config : Config.t)
  : M Body (option Body) :=
  let url := VStr (_buildApiUrl this endpoint) in
  let headers :=
    match Config.headers config with
    | HObject h => h
    | _ => ∅
    end in
  let defaultHeaders :=
    defaultHeaders (clientId this) (clientSecret this) (sourceSystem this) in
  let headers := defaults headers defaultHeaders in
  let timeout :=
    if truthy (timeout this) then timeout this else Config.timeout config in
  let config :=
    Config.mk (Config.method config) url (Config.params config)
      (Config.data config) (HObject headers) timeout in
  (* [inl v] is the [return v] taken inside the catch block. *)
  let* step :=
    try_catch
      (let* response := dispatch axios config in ret (inr response))
      (fun e =>
         match Err.response e with
         | Some r =>
             do _writeLog this endpoint config r (VStr "error") then
             if Response.status r =? 404 then ret (inl None)
             else throw e
         | None => throw e
         end) in
  match step with
  | inl early => ret early
  | inr response =>
      do _writeLog this endpoint config response VUndefined then
      ret (Some (Response.data response))
  end.

Definition get (this : client) (endpoint : string) (params : option obj)
    (headers : header_slot) : M Body (option Body) :=
  let config :=
    Config.mk "GET" VUndefined
      (match params with Some p => p | None => ∅ end)
      VUndefined headers VUndefined in
  _request this endpoint config.

Definition post (this : client) (endpoint : string) (params : option obj)
    (data : value) (headers : header_slot) : M Body (option Body) :=
  let config :=
    Config.mk "POST" VUndefined
      (match params with Some p => p | None => ∅ end)
      data headers VUndefined in
  _request this endpoint config.

Definition createCRE (this : client)
    (organizationId batchId classId : value) (options : list obj)
  : M Body (option Body) :=
  let endpoint := "/cre" in
  let body := createCRE_body this organizationId batchId classId options in
  post this endpoint None (VStr body) HNull.

Definition getCRE (this : client) (offeringId : value)
  : M Body (option Body) :=
  let endpoint := "/cre/" ++ to_string offeringId in
  get this endpoint None HUndefined.

Definition ping (this : client) : M Body (option Body) :=
  let endpoint := "/ping" in
  get this endpoint None HUndefined.

End Client.
End Part0.

(** ** The documented wire layout

    The column layouts of the interface table, written down independently of
    the two loops so that they can be compared with them. *)

Module Documented.

Inductive record_kind : Type := Organization | Instructor | Student.

Definition code (k : record_kind) : string :=
  match k with
  | Organization => "A"
  | Instructor => "B"
  | Student => "C"
  end.

(** The variant a record's discriminant selects, if any. *)
Definition kind_of (record : obj) : option record_kind :=
  match get record "type" with
  | VStr t =>
      if String.eqb t "A" then Some Organization
      else if String.eqb t "B" then Some Instructor
      else if String.eqb t "C" then Some Student
      else None
  | _ => None
  end.

Definition recognized (record : obj) : bool :=
  match kind_of record with Some _ => true | None => false end.

Definition instructor_fields : list string :=
  [ "instructorID"; "firstName"; "lastName"; "email" ].

Definition student_fields : list string :=
  [ "firstName"; "lastName"; "email"; "phoneNumber"; "mastery"; "notes" ].

Definition offering_fields : list string :=
  [ "poAccountName"; "productSKU"; "startDate"; "endDate";
    "numberOfStudents"; "facilityName"; "address"; "city"; "state";
    "zipCode" ].

(** Variant columns of the layout without the source-system column. *)
Definition fields_plain (k : record_kind) (record : obj) : list value :=
  match k with
  | Organization =>
      get record "organizationName" :: List.map (get record) offering_fields
  | Instructor => List.map (get record) instructor_fields
  | Student => List.map (get record) student_fields
  end.

(** Variant columns of the layout with the source-system column. *)
Definition fields_with_source (organizationId sourceSystem : value)
    (k : record_kind) (record : obj) : list value :=
  match k with
  | Organization =>
      organizationId :: sourceSystem :: List.map (get record) offering_fields
  | Instructor => List.map (get record) instructor_fields
  | Student => List.map (get record) student_fields
  end.

(** One line: the four leading columns, then the variant's columns, joined
    by the delimiter. *)
Definition line (organizationId batchId classId : value) (code : string)
    (fields : list value) : string :=
  join "|" ([ organizationId; batchId; classId; VStr code ] ++ fields)%list.

(** The lines of a batch under a layout: one line per record with a known
    discriminant, in input order. *)
Definition lines (organizationId batchId classId : value)
    (code : record_kind -> string)
    (fields : record_kind -> obj -> list value) (records : list obj)
  : list string :=
  flat_map
    (fun record =>
       match kind_of record with
       | Some k => [ line organizationId batchId classId (code k) (fields k record) ]
       | None => []
       end)
    records.

End Documented.

(** ** Vocabulary of the properties *)

(** [needle] occurs in [hay]. *)
Fixpoint contains (needle hay : string) : bool :=
  if String.prefix needle hay then true
  else match hay with
       | EmptyString => false
       | String _ rest => contains needle rest
       end.

(** The path carries version [n] as its version segment. *)
Definition path_has_version (n : Z) (path : string) : Prop :=
  exists rest,
    path = "/course/recordentry/eapi/v" ++ num_to_string n ++ "/" ++ rest.

(** The URL of the simpler client carries version [n] right after the host. *)
Definition url_has_version (host : value) (n : Z) (url : string) : Prop :=
  exists rest,
    url = "https://" ++ to_string host ++ "/v" ++ num_to_string n ++ "/" ++ rest.

(** The error [err] reports the upstream response [r]: it exposes the status
    and the body, as [code] and [meta] or through [response]. *)
Definition carries_upstream {Body} (err : Err.t Body) (r : Response.t Body)
  : Prop :=
  (Err.code err = VNum (Response.status r)
   /\ Err.meta err = Some (Response.data r))
  \/ Err.response err = Some r.

(** The completion [res] is an error that reports [r] and names [url] in its
    message. *)
Definition upstream_error_reported {Body A} (url : string)
    (r : Response.t Body) (res : outcome (Err.t Body) A) : Prop :=
  exists err,
    res = Throw err /\ carries_upstream err r
    /\ contains url (Err.message err) = true.

(** The log write for response [r] can complete: there is no logger, or the
    logger comes with its configuration, the response has the request object
    the [params] toggle reads, and the logger's methods return. *)
Definition logging_ready {Body} (this : @Part0.client Body)
    (r : Response.t Body) : Prop :=
  match Part0.logger this with
  | None => True
  | Some logger =>
      (exists loggerConfig,
          Part0.loggerConfig this = Some loggerConfig
          /\ (truthy (get loggerConfig "params") = true ->
              Response.request_path r <> None))
      /\ forall level line, logger level line = None
  end.






(** The request description [_request] of src/lib/ArcCre.js hands to the
    transport for a caller's [config]. *)
Definition lib_dispatched (this : Lib.client) (config : Config.t) : Config.t :=
  Config.mk (Config.method config) (Config.url config) (Config.params config)
    (Config.data config)
    (match Config.headers config with
     | HObject h =>
         HObject
           (defaults h
              (defaultHeaders (Lib.clientId this) (Lib.clientSecret this)
                 (Lib.sourceSystem this)))
     | slot => slot
     end)
    (Config.timeout config).

(** The request description [_request] of part_000 hands to the transport
    for a caller's [endpoint] and [config]. *)
Definition part0_dispatched {Body} (this : @Part0.client Body)
    (endpoint : string) (config : Config.t) : Config.t :=
  Config.mk (Config.method config) (VStr (Part0._buildApiUrl this endpoint))
    (Config.params config) (Config.data config)
    (HObject
       (defaults
          (match Config.headers config with HObject h => h | _ => ∅ end)
          (defaultHeaders (Part0.clientId this) (Part0.clientSecret this)
             (Part0.sourceSystem this))))
    (if truthy (Part0.timeout this) then Part0.timeout this
     else Config.timeout config).

(** The trace of one HTTP exchange: the dispatch of [d], then at most one
    call of the logger. *)
Definition single_exchange (d : Config.t) (tr : list event) : Prop :=
  tr = [ Dispatch d ] \/ exists level line, tr = [ Dispatch d; LogCall level line ].

(** The names of the four default headers. *)
Definition default_header_names : list string :=
  [ "client_id"; "client_secret"; "Content-Type"; "source_system" ].

(** The trace [tr] starts with the dispatch of a request whose headers are
    the [caller]'s object completed from the defaults [d]: a caller value
    that is not [undefined] stands, and names outside the four defaults are
    passed through untouched. *)
Definition headers_merged (caller d : obj) (tr : list event) : Prop :=
  exists config logs hs,
    tr = Dispatch config :: logs
    /\ Config.headers config = HObject hs
    /\ (forall k,
          get hs k
          = match get caller k with
            | VUndefined => get d k
            | v => v
            end)
    /\ (forall k, ~ In k default_header_names -> get hs k = get caller k).

(** ** Sample data *)

Module Fixture.

Definition organization : obj :=
  list_to_map
    [ ("type", VStr "A"); ("organizationName", VStr "Lakeside Chapter");
      ("poAccountName", VStr "PO-778"); ("productSKU", VStr "SKU-12");
      ("startDate", VStr "2021-03-01"); ("endDate", VStr "2021-03-02");
      ("numberOfStudents", VNum 1); ("facilityName", VStr "Main Hall");
      ("address", VStr "1 Elm St"); ("city", VStr "Akron");
      ("state", VStr "OH"); ("zipCode", VStr "44301") ].

Definition instructor : obj :=
  list_to_map
    [ ("type", VStr "B"); ("instructorID", VStr "I-100");
      ("firstName", VStr "Ada"); ("lastName", VStr "Byron");
      ("email", VStr "ada@example.org") ].

Definition student : obj :=
  list_to_map
    [ ("type", VStr "C"); ("firstName", VStr "Tim"); ("lastName", VStr "Roe");
      ("email", VStr "tim@example.org"); ("phoneNumber", VStr "555-0100");
      ("mastery", VStr "Pass"); ("notes", VStr "none") ].


(** A record with a discriminant outside the three codes. *)
Definition stray : obj :=
  list_to_map [ ("type", VStr "Z"); ("firstName", VStr "Nobody") ].

Definition credentials : Options.t :=
  Options.mk VUndefined VUndefined (VStr "id-1") (VStr "s3cr3t") VUndefined
    VUndefined (VStr "LMS") None VUndefined VUndefined VUndefined.

(** [{ version: 2 }] *)
Definition version_two : Options.t :=
  Options.mk VUndefined (VNum 2) VUndefined VUndefined VUndefined
    VUndefined VUndefined None VUndefined VUndefined VUndefined.

(** Logging switched on for every part of the line. *)
Definition with_logging : Options.t :=
  Options.mk VUndefined VUndefined (VStr "id-1") (VStr "s3cr3t") VUndefined
    VUndefined (VStr "LMS")
    (Some (list_to_map
             [ ("url", VBool true); ("params", VBool true);
               ("data", VBool true); ("response", VBool true) ]))
    VUndefined VUndefined VUndefined.

(** A logger configuration with every toggle off. *)
Definition terse_logging : Options.t :=
  Options.mk VUndefined VUndefined (VStr "id-1") (VStr "s3cr3t") VUndefined
    VUndefined (VStr "LMS") (Some ∅) VUndefined VUndefined VUndefined.

Definition ok : Response.t string :=
  Response.mk 200 "OK" "roster" (Some (VStr "/x")).

(** Upstream bodies are text in the samples. *)
Definition network_error : Err.t string :=
  Err.mk "Error" "Network Error" None (VStr "ERR_NETWORK") None.

Definition not_found : Response.t string :=
  Response.mk 404 "Not Found" "no such offering" (Some (VStr "/x")).


(** The rejection axios produces for a response outside 2xx: its code is
    [ERR_BAD_REQUEST] for a 4xx status and [ERR_BAD_RESPONSE] for a 5xx one. *)
Definition bad_status (r : Response.t string) : Err.t string :=
  Err.mk "AxiosError"
    ("Request failed with status code " ++ num_to_string (Response.status r))
    (Some r)
    (if (400 <=? Response.status r) && (Response.status r <? 500)
     then VStr "ERR_BAD_REQUEST"
     else if (500 <=? Response.status r) && (Response.status r <? 600)
          then VStr "ERR_BAD_RESPONSE"
          else VUndefined)
    None.

Definition network_down : transport string :=
  fun _ => Throw network_error.

Definition answering (r : Response.t string) : transport string :=
  fun _ =>
    if (200 <=? Response.status r) && (Response.status r <? 300)
    then Return r else Throw (bad_status r).

(** Stand-ins for [JSON.stringify] in the samples. *)
Definition stringify (v : value) : value :=
  match v with
  | VUndefined => VUndefined
  | VStr s => VStr (String "034"%char s ++ String "034"%char EmptyString)
  | _ => VStr (to_string v)
  end.

Definition stringify_body (b : string) : value := stringify (VStr b).

(** A logger whose methods all return. *)
Definition quiet_logger : @Part0.Logger string := fun _ _ => None.

End Fixture.

(** ** Properties *)

(** *** Strings *)

Lemma prefix_app (needle rest : string) :
  String.prefix needle (needle ++ rest) = true.
Proof.
  induction needle as [|c needle IH].
  - destruct rest; reflexivity.
  - change (String c needle ++ rest) with (String c (needle ++ rest)).
    simpl. destruct (ascii_dec c c) as [_|Hne]; [exact IH | contradiction].
Qed.

Lemma contains_here (needle hay : string) :
  String.prefix needle hay = true -> contains needle hay = true.
Proof.
  intros H. destruct hay as [|c hay].
  - destruct needle; [reflexivity | discriminate H].
  - cbn [contains]. rewrite H. reflexivity.
Qed.

Lemma contains_app (needle pre post : string) :
  contains needle (pre ++ needle ++ post) = true.
Proof.
  induction pre as [|c pre IH].
  - change ("" ++ needle ++ post) with (needle ++ post).
    apply contains_here, prefix_app.
  - change (String c pre ++ needle ++ post)
      with (String c (pre ++ needle ++ post)).
    cbn [contains]. rewrite IH. destruct (String.prefix _ _); reflexivity.
Qed.

Lemma string_app_assoc (a b c : string) : (a ++ b) ++ c = a ++ (b ++ c).
Proof.
  induction a as [|x a IH]; [reflexivity|].
  change (String x ((a ++ b) ++ c) = String x (a ++ b ++ c)). now rewrite IH.
Qed.

(** *** URL construction *)

(** The endpoint as both [_buildApiUrl] routines use it: with its leading
    separator. *)
Lemma lib_url_leading_separator (this : Lib.client) (endpoint : string) :
  first_char endpoint <> "/" ->
  Lib._buildApiUrl this endpoint = Lib._buildApiUrl this ("/" ++ endpoint).
Proof.
  intros Hne. unfold Lib._buildApiUrl.
  destruct (String.eqb (first_char endpoint) "/") eqn:E.
  - apply String.eqb_eq in E. contradiction.
  - reflexivity.
Qed.

Lemma part0_path_leading_separator {Body} (this : @Part0.client Body)
    (endpoint : string) :
  first_char endpoint <> "/" ->
  Part0._buildPath this endpoint = Part0._buildPath this ("/" ++ endpoint).
Proof.
  intros Hne. unfold Part0._buildPath.
  destruct (String.eqb (first_char endpoint) "/") eqn:E.
  - apply String.eqb_eq in E. contradiction.
  - reflexivity.
Qed.

(** C8. For every client of either implementation, the URL built from the
    endpoint [cre] and the one built from [/cre] are the same string. *)
Theorem url_cre_leading_separator_idempotent
    {Body} (lib : Lib.client) (part : @Part0.client Body) :
  Lib._buildApiUrl lib "cre" = Lib._buildApiUrl lib "/cre"
  /\ Part0._buildPath part "cre" = Part0._buildPath part "/cre"
  /\ Part0._buildApiUrl part "cre" = Part0._buildApiUrl part "/cre".
Proof.
  split; [|split].
  - apply lib_url_leading_separator. discriminate.
  - apply part0_path_leading_separator. discriminate.
  - unfold Part0._buildApiUrl.
    rewrite (part0_path_leading_separator part "cre"); [reflexivity | discriminate].
Qed.

(** *** Configuration defaults *)

Lemma constructor_without_options {Body} (logger : option (@Part0.Logger Body)) :
  Lib.ArcCre None = Lib.ArcCre (Some Options.empty)
  /\ Part0.ArcCre None logger = Part0.ArcCre (Some Options.empty) logger.
Proof. split; reflexivity. Qed.

(** The normalised endpoint starts with the separator. *)
Lemma normalised_endpoint (endpoint : string) :
  exists rest,
    (if negb (String.eqb (first_char endpoint) "/") then "/" ++ endpoint
     else endpoint) = "/" ++ rest.
Proof.
  destruct (String.eqb (first_char endpoint) "/") eqn:E; simpl.
  - apply String.eqb_eq in E. destruct endpoint as [|c rest]; [discriminate|].
    simpl in E. injection E as ->. now exists rest.
  - now exists endpoint.
Qed.

(** C9, as the code has it. When both [apiVersion] and its alias [version]
    are omitted, every URL of either implementation carries version 1; when
    [protocol] is omitted, every URL begins with the https scheme (the simpler
    implementation has no protocol option and always uses https). *)
Theorem defaults_version_one_and_https
    {Body} (options : Options.t) (logger : option (@Part0.Logger Body))
    (endpoint : string) :
  (Options.apiVersion options = VUndefined ->
   Options.version options = VUndefined ->
   url_has_version (Lib.host (Lib.ArcCre (Some options))) 1
     (Lib._buildApiUrl (Lib.ArcCre (Some options)) endpoint)
   /\ exists path,
       Part0._buildApiUrl (Part0.ArcCre (Some options) logger) endpoint
       = Part0._buildScheme (Part0.ArcCre (Some options) logger) ++ path
       /\ path_has_version 1 path)
  /\ (Options.protocol options = VUndefined ->
      String.prefix "https://"
        (Part0._buildApiUrl (Part0.ArcCre (Some options) logger) endpoint) = true
      /\ String.prefix "https://"
           (Lib._buildApiUrl (Lib.ArcCre (Some options)) endpoint) = true).
Proof.
  split.
  - intros Ha Hv.
    destruct (normalised_endpoint endpoint) as [rest Hrest].
    split.
    + unfold url_has_version, Lib._buildApiUrl. simpl.
      rewrite Ha, Hv. simpl. rewrite Hrest. exists rest. reflexivity.
    + exists (Part0._buildPath (Part0.ArcCre (Some options) logger) endpoint).
      split; [reflexivity|].
      unfold path_has_version, Part0._buildPath. simpl.
      rewrite Ha, Hv. simpl. rewrite Hrest. exists rest. reflexivity.
  - intros Hp. split.
    + unfold Part0._buildApiUrl, Part0._buildScheme, Part0.ArcCre.
      cbn [Part0.protocol Part0.host]. rewrite Hp.
      change (to_string (or_else VUndefined (VStr "https"))) with "https".
      rewrite !string_app_assoc. apply (prefix_app "https://").
    + apply (prefix_app "https://").
Qed.

Lemma defaults_version_one_and_https_witness :
  url_has_version (VStr QA_HOST) 1
    (Lib._buildApiUrl (Lib.ArcCre (Some Fixture.credentials)) "cre")
  /\ (exists path,
        Part0._buildApiUrl
          (Part0.ArcCre (Some Fixture.credentials) (Some Fixture.quiet_logger))
          "cre"
        = Part0._buildScheme
            (Part0.ArcCre (Some Fixture.credentials) (Some Fixture.quiet_logger))
            ++ path
        /\ path_has_version 1 path)
  /\ String.prefix "https://"
       (Part0._buildApiUrl
          (Part0.ArcCre (Some Fixture.credentials) (Some Fixture.quiet_logger))
          "cre") = true.
Proof.
  destruct (defaults_version_one_and_https Fixture.credentials
              (Some Fixture.quiet_logger) "cre") as [Hv Hp].
  destruct (Hv eq_refl eq_refl) as (H1 & H2).
  destruct (Hp eq_refl) as [H3 _].
  exact (conj H1 (conj H2 H3)).
Defined.

(** C9, as stated, fails: with [apiVersion] omitted and the alias [version]
    set to 2, the built URLs carry version 2. *)
Lemma version_alias_overrides_default :
  Options.apiVersion Fixture.version_two = VUndefined
  /\ Part0._buildApiUrl
       (@Part0.ArcCre string (Some Fixture.version_two) None) "/cre"
     = "https://" ++ QA_HOST ++ "/course/recordentry/eapi/v2/cre"
  /\ ~ path_has_version 1
         (Part0._buildPath
            (@Part0.ArcCre string (Some Fixture.version_two) None) "/cre")
  /\ Lib._buildApiUrl (Lib.ArcCre (Some Fixture.version_two)) "/cre"
     = "https://" ++ QA_HOST ++ "/v2/cre"
  /\ ~ url_has_version (VStr QA_HOST) 1
         (Lib._buildApiUrl (Lib.ArcCre (Some Fixture.version_two)) "/cre").
Proof.
  repeat split.
  - intros [rest H]. vm_compute in H. discriminate H.
  - intros [rest H]. vm_compute in H. discriminate H.
Qed.

(** *** Record serialization *)

Lemma fold_push {A} (step : list string -> A -> list string)
    (emitted : A -> list string) (l : list A) :
  (forall lines x, step lines x = (lines ++ emitted x)%list) ->
  forall acc, fold_left step l acc = (acc ++ flat_map emitted l)%list.
Proof.
  intros Hstep. induction l as [|x l IH]; intros acc; simpl.
  - now rewrite app_nil_r.
  - rewrite IH, Hstep, <- app_assoc. reflexivity.
Qed.

(** The loop of part_000 produces the documented layout with the
    source-system column. *)
Lemma part0_lines_follow_layout {Body} (this : @Part0.client Body)
    (organizationId batchId classId : value) (options : list obj) :
  Part0.createCRE_lines this organizationId batchId classId options
  = Documented.lines organizationId batchId classId Documented.code
      (Documented.fields_with_source organizationId (Part0.sourceSystem this))
      options.
Proof.
  unfold Part0.createCRE_lines, Documented.lines.
  rewrite fold_push with (emitted := fun record =>
    match Documented.kind_of record with
    | Some k =>
        [ Documented.line organizationId batchId classId (Documented.code k)
            (Documented.fields_with_source organizationId
               (Part0.sourceSystem this) k record) ]
    | None => []
    end); [reflexivity|].
  intros lines x. unfold Documented.kind_of.
  destruct (get x "type") as [| |b|n|t]; simpl; rewrite ?app_nil_r; try reflexivity.
  unfold RECORD_TYPES.ORGANIZATION, RECORD_TYPES.INSTRUCTOR, RECORD_TYPES.STUDENT.
  destruct (String.eqb t "A"); [reflexivity|].
  destruct (String.eqb t "B"); [reflexivity|].
  destruct (String.eqb t "C"); [reflexivity|].
  now rewrite app_nil_r.
Qed.

(** The loop of src/lib/ArcCre.js produces the layout without the
    source-system column, but writes code [A] on every line. *)
Lemma lib_lines_shape (organizationId batchId classId : value)
    (options : list obj) :
  Lib.createCRE_lines organizationId batchId classId options
  = Documented.lines organizationId batchId classId (fun _ => "A")
      Documented.fields_plain options.
Proof.
  unfold Lib.createCRE_lines, Documented.lines.
  rewrite fold_push with (emitted := fun record =>
    match Documented.kind_of record with
    | Some k =>
        [ Documented.line organizationId batchId classId "A"
            (Documented.fields_plain k record) ]
    | None => []
    end); [reflexivity|].
  intros lines x. unfold Documented.kind_of.
  destruct (get x "type") as [| |b|n|t]; simpl; rewrite ?app_nil_r; try reflexivity.
  unfold RECORD_TYPES.ORGANIZATION, RECORD_TYPES.INSTRUCTOR, RECORD_TYPES.STUDENT.
  destruct (String.eqb t "A"); [reflexivity|].
  destruct (String.eqb t "B"); [reflexivity|].
  destruct (String.eqb t "C"); [reflexivity|].
  now rewrite app_nil_r.
Qed.

Lemma layout_lines_skip_unrecognized (organizationId batchId classId : value)
    (code : Documented.record_kind -> string)
    (fields : Documented.record_kind -> obj -> list value)
    (records : list obj) :
  Documented.lines organizationId batchId classId code fields records
  = Documented.lines organizationId batchId classId code fields
      (List.filter Documented.recognized records)
  /\ length (Documented.lines organizationId batchId classId code fields records)
     = length (List.filter Documented.recognized records).
Proof.
  unfold Documented.lines, Documented.recognized.
  induction records as [|r records [IHl IHn]]; [split; reflexivity|].
  simpl. destruct (Documented.kind_of r) as [k|] eqn:E; simpl.
  - rewrite E. simpl. split; [now rewrite IHl | now rewrite IHn].
  - split; assumption.
Qed.

(** What [_request] of src/lib/ArcCre.js hands to the transport: the request
    description, with the defaults merged only into a headers object. *)
Lemma lib_request_dispatches {Body} (axios : transport Body)
    (this : Lib.client) (config : Config.t) :
  fst (Lib._request axios this config)
  = [ Dispatch
        (Config.mk (Config.method config) (Config.url config)
           (Config.params config) (Config.data config)
           (match Config.headers config with
            | HObject h =>
                HObject
                  (defaults h
                     (defaultHeaders (Lib.clientId this) (Lib.clientSecret this)
                        (Lib.sourceSystem this)))
            | slot => slot
            end)
           (Config.timeout config)) ].
Proof.
  unfold Lib._request, try_catch, bind, dispatch.
  destruct config as [m u p d h t]; simpl.
  destruct h as [| |h]; simpl;
    (match goal with |- context [axios ?c] => destruct (axios c) as [r|e] end);
    simpl; try reflexivity; destruct (Err.response e); reflexivity.
Qed.

(** What [_request] of part_000 hands to the transport. *)
Lemma part0_request_dispatches {Body} (axios : transport Body)
    (JSON_stringify : value -> value) (JSON_stringify_body : Body -> value)
    (this : Part0.client) (endpoint : string) (config : Config.t) :
  exists tr,
    fst (Part0._request axios JSON_stringify JSON_stringify_body this endpoint
           config)
    = Dispatch
        (Config.mk (Config.method config)
           (VStr (Part0._buildApiUrl this endpoint))
           (Config.params config) (Config.data config)
           (HObject
              (defaults
                 (match Config.headers config with
                  | HObject h => h
                  | _ => ∅
                  end)
                 (defaultHeaders (Part0.clientId this)
                    (Part0.clientSecret this) (Part0.sourceSystem this))))
           (if truthy (Part0.timeout this) then Part0.timeout this
            else Config.timeout config))
      :: tr.
Proof.
  unfold Part0._request, try_catch, bind, dispatch.
  match goal with |- context [axios ?c] => destruct (axios c) as [r|e] end.
  - simpl. destruct (Part0._writeLog _ _ _ _ _ _ _) as [tr [[]|e]]; simpl;
      eexists; reflexivity.
  - destruct (Err.response e) as [r|]; simpl.
    + destruct (Part0._writeLog _ _ _ _ _ _ _) as [tr [[]|e']]; simpl.
      * destruct (Response.status r =? 404); simpl; eexists; reflexivity.
      * eexists; reflexivity.
    + eexists; reflexivity.
Qed.

Example stray_record_leaves_no_line :
  Part0.createCRE_body (@Part0.ArcCre string (Some Fixture.credentials) None)
    (VStr "ORG1") (VNum 7) (VNum 42)
    [ Fixture.stray; Fixture.instructor; Fixture.stray ]
  = "ORG1|7|42|B|I-100|Ada|Byron|ada@example.org".
Proof. vm_compute. reflexivity. Qed.

(** C1, at a batch of one instructor and one student: src/lib/ArcCre.js
    writes code [A] in the fourth column of both lines, where the records'
    discriminants, and the documented layout, have [B] and [C]. *)
Theorem lib_lines_carry_organization_code :
  get Fixture.instructor "type" = VStr "B"
  /\ get Fixture.student "type" = VStr "C"
  /\ Lib.createCRE_lines (VStr "ORG1") (VNum 7) (VNum 42)
       [ Fixture.instructor; Fixture.student ]
     = [ "ORG1|7|42|A|I-100|Ada|Byron|ada@example.org";
         "ORG1|7|42|A|Tim|Roe|tim@example.org|555-0100|Pass|none" ]
  /\ Documented.lines (VStr "ORG1") (VNum 7) (VNum 42) Documented.code
       Documented.fields_plain [ Fixture.instructor; Fixture.student ]
     = [ "ORG1|7|42|B|I-100|Ada|Byron|ada@example.org";
         "ORG1|7|42|C|Tim|Roe|tim@example.org|555-0100|Pass|none" ].
Proof. repeat split; vm_compute; reflexivity. Qed.

(** X6. In part_000 every line starts with the four leading columns, the
    fourth being the record's own discriminant, followed by the variant's
    columns in the documented order. *)
Lemma part0_lines_start_with_leading_columns {Body} (this : @Part0.client Body)
    (organizationId batchId classId : value) (options : list obj) (l : string) :
  In l (Part0.createCRE_lines this organizationId batchId classId options) ->
  exists record k,
    In record options
    /\ Documented.kind_of record = Some k
    /\ get record "type" = VStr (Documented.code k)
    /\ l = join "|"
             ([ organizationId; batchId; classId; get record "type" ]
                ++ Documented.fields_with_source organizationId
                     (Part0.sourceSystem this) k record)%list.
Proof.
  rewrite part0_lines_follow_layout. unfold Documented.lines.
  rewrite in_flat_map. intros (record & Hin & Hl).
  destruct (Documented.kind_of record) as [k|] eqn:E; [|contradiction].
  destruct Hl as [<-|[]]. exists record, k. repeat split; try assumption.
  - unfold Documented.kind_of in E.
    destruct (get record "type") as [| |b|n|t]; try discriminate.
    destruct (String.eqb t "A") eqn:EA;
      [apply String.eqb_eq in EA; now inversion E; subst|].
    destruct (String.eqb t "B") eqn:EB;
      [apply String.eqb_eq in EB; now inversion E; subst|].
    destruct (String.eqb t "C") eqn:EC;
      [apply String.eqb_eq in EC; now inversion E; subst|].
    discriminate.
  - unfold Documented.line. do 2 f_equal.
    unfold Documented.kind_of in E.
    destruct (get record "type") as [| |b|n|t]; try discriminate.
    destruct (String.eqb t "A") eqn:EA;
      [apply String.eqb_eq in EA; now inversion E; subst|].
    destruct (String.eqb t "B") eqn:EB;
      [apply String.eqb_eq in EB; now inversion E; subst|].
    destruct (String.eqb t "C") eqn:EC;
      [apply String.eqb_eq in EC; now inversion E; subst|].
    discriminate.
Qed.

(** C2, at a batch of one organization, one instructor and one student:
    src/lib/ArcCre.js sends three CRLF-separated lines that all carry code
    [A]; the documented layout has [B] and [C] on the second and third. *)
Theorem lib_fixture_body_carries_organization_code
    {Body} (axios : transport Body) :
  let batch := [ Fixture.organization; Fixture.instructor; Fixture.student ] in
  let sent :=
    join_strings (CR ++ LF)
      [ "ORG1|7|42|A|Lakeside Chapter|PO-778|SKU-12|2021-03-01|2021-03-02|1|Main Hall|1 Elm St|Akron|OH|44301";
        "ORG1|7|42|A|I-100|Ada|Byron|ada@example.org";
        "ORG1|7|42|A|Tim|Roe|tim@example.org|555-0100|Pass|none" ] in
  let documented :=
    join_strings (CR ++ LF)
      [ "ORG1|7|42|A|Lakeside Chapter|PO-778|SKU-12|2021-03-01|2021-03-02|1|Main Hall|1 Elm St|Akron|OH|44301";
        "ORG1|7|42|B|I-100|Ada|Byron|ada@example.org";
        "ORG1|7|42|C|Tim|Roe|tim@example.org|555-0100|Pass|none" ] in
  fst (Lib.createCRE axios (Lib.ArcCre (Some Fixture.credentials))
         (VStr "ORG1") (VNum 7) (VNum 42) batch)
  = [ Dispatch
        (Config.mk "post" (VStr ("https://" ++ QA_HOST ++ "/v1/cre")) ∅
           (VStr sent) HNull VUndefined) ]
  /\ join_strings (CR ++ LF)
       (Documented.lines (VStr "ORG1") (VNum 7) (VNum 42) Documented.code
          Documented.fields_plain batch)
     = documented
  /\ sent <> documented.
Proof.
  intros batch sent documented. split; [|split].
  - unfold Lib.createCRE, Lib._post. rewrite lib_request_dispatches.
    vm_compute. reflexivity.
  - vm_compute. reflexivity.
  - vm_compute. discriminate.
Qed.

(** The same batch through part_000: LF-separated lines in the documented
    layout with the source-system column, each with its own code. *)
Lemma part0_fixture_body :
  Part0.createCRE_body (@Part0.ArcCre string (Some Fixture.credentials) None)
    (VStr "ORG1") (VNum 7) (VNum 42)
    [ Fixture.organization; Fixture.instructor; Fixture.student ]
  = join_strings LF
      [ "ORG1|7|42|A|ORG1|LMS|PO-778|SKU-12|2021-03-01|2021-03-02|1|Main Hall|1 Elm St|Akron|OH|44301";
        "ORG1|7|42|B|I-100|Ada|Byron|ada@example.org";
        "ORG1|7|42|C|Tim|Roe|tim@example.org|555-0100|Pass|none" ].
Proof. vm_compute. reflexivity. Qed.

(** *** Default headers *)

Lemma get_defaults (object source : obj) (k : string) :
  get (defaults object source) k
  = match get object k with
    | VUndefined => get source k
    | v => v
    end.
Proof.
  unfold get, defaults. rewrite lookup_merge.
  destruct (object !! k) as [[]|], (source !! k) as [v|]; reflexivity.
Qed.

Lemma get_defaultHeaders (clientId clientSecret sourceSystem : value) :
  let d := defaultHeaders clientId clientSecret sourceSystem in
  get d "client_id" = clientId
  /\ get d "client_secret" = clientSecret
  /\ get d "Content-Type" = VStr "text/plain"
  /\ get d "source_system" = sourceSystem.
Proof.
  unfold defaultHeaders, get. repeat split.
Qed.

(** C3, at the three operations of src/lib/ArcCre.js: the request they
    dispatch has no headers object at all ([undefined] for the two GETs,
    [null] for the POST), so none of the default headers is sent. *)
Theorem lib_operations_dispatch_without_default_headers
    {Body} (axios : transport Body) :
  let this := Lib.ArcCre (Some Fixture.credentials) in
  fst (Lib.ping axios this)
  = [ Dispatch
        (Config.mk "get" (VStr ("https://" ++ QA_HOST ++ "/v1/ping")) ∅
           VUndefined HUndefined VUndefined) ]
  /\ fst (Lib.getCRE axios this (VStr "OFF-1"))
     = [ Dispatch
           (Config.mk "get" (VStr ("https://" ++ QA_HOST ++ "/v1/cre/OFF-1")) ∅
              VUndefined HUndefined VUndefined) ]
  /\ fst (Lib.createCRE axios this (VStr "ORG1") (VNum 7) (VNum 42)
            [ Fixture.instructor ])
     = [ Dispatch
           (Config.mk "post" (VStr ("https://" ++ QA_HOST ++ "/v1/cre")) ∅
              (VStr "ORG1|7|42|A|I-100|Ada|Byron|ada@example.org")
              HNull VUndefined) ].
Proof.
  intros this. split; [|split].
  - unfold Lib.ping, Lib._get. rewrite lib_request_dispatches. reflexivity.
  - unfold Lib.getCRE, Lib._get. rewrite lib_request_dispatches. reflexivity.
  - unfold Lib.createCRE, Lib._post. rewrite lib_request_dispatches.
    vm_compute. reflexivity.
Qed.

(** When src/lib/ArcCre.js is handed a headers object, the defaults are
    merged into it with the caller's values kept. *)
Lemma lib_get_merges_into_headers_object {Body} (axios : transport Body)
    (this : Lib.client) (endpoint : string) (h : obj) :
  exists hs,
    fst (Lib._get axios this endpoint None (HObject h))
    = [ Dispatch
          (Config.mk "get" (VStr (Lib._buildApiUrl this endpoint)) ∅ VUndefined
             (HObject hs) VUndefined) ]
    /\ forall k,
        get hs k
        = match get h k with
          | VUndefined =>
              get (defaultHeaders (Lib.clientId this) (Lib.clientSecret this)
                     (Lib.sourceSystem this)) k
          | v => v
          end.
Proof.
  eexists. split.
  - unfold Lib._get. rewrite lib_request_dispatches. reflexivity.
  - intros k. apply get_defaults.
Qed.

(** In part_000 every request carries the four defaults wherever the caller
    gave no value of that name, and the caller's value otherwise. *)
Lemma part0_request_merges_default_headers {Body} (axios : transport Body)
    (JSON_stringify : value -> value) (JSON_stringify_body : Body -> value)
    (this : Part0.client) (endpoint : string) (config : Config.t) :
  let caller :=
    match Config.headers config with HObject h => h | _ => ∅ end in
  exists dispatched hs tr,
    fst (Part0._request axios JSON_stringify JSON_stringify_body this endpoint
           config) = Dispatch dispatched :: tr
    /\ Config.headers dispatched = HObject hs
    /\ (forall k,
          get hs k
          = match get caller k with
            | VUndefined =>
                get (defaultHeaders (Part0.clientId this)
                       (Part0.clientSecret this) (Part0.sourceSystem this)) k
            | v => v
            end).
Proof.
  intros caller.
  destruct (part0_request_dispatches axios JSON_stringify JSON_stringify_body
              this endpoint config) as [tr Htr].
  eexists. eexists. exists tr. split; [exact Htr|]. split; [reflexivity|].
  intros k. apply get_defaults.
Qed.

(** X8. Each of the three operations of part_000 dispatches its request
    with the four default headers set from the client: the two credentials,
    the source system and the text content type. *)
Lemma part0_operations_send_default_headers {Body} (axios : transport Body)
    (JSON_stringify : value -> value) (JSON_stringify_body : Body -> value)
    (this : Part0.client) (m : M Body (option Body)) :
  (m = Part0.ping axios JSON_stringify JSON_stringify_body this
   \/ (exists offeringId,
         m = Part0.getCRE axios JSON_stringify JSON_stringify_body this offeringId)
   \/ (exists organizationId batchId classId options,
         m = Part0.createCRE axios JSON_stringify JSON_stringify_body this
               organizationId batchId classId options)) ->
  exists dispatched hs tr,
    fst m = Dispatch dispatched :: tr
    /\ Config.headers dispatched = HObject hs
    /\ get hs "client_id" = Part0.clientId this
    /\ get hs "client_secret" = Part0.clientSecret this
    /\ get hs "Content-Type" = VStr "text/plain"
    /\ get hs "source_system" = Part0.sourceSystem this.
Proof.
  intros Hm.
  assert (Hreq : exists endpoint config,
             m = Part0._request axios JSON_stringify JSON_stringify_body this
                   endpoint config
             /\ (Config.headers config = HUndefined
                 \/ Config.headers config = HNull)).
  { destruct Hm as [->|[[o ->]|(a & b & c & d & ->)]].
    - eexists. eexists. split; [reflexivity|]. left. reflexivity.
    - eexists. eexists. split; [reflexivity|]. left. reflexivity.
    - eexists. eexists. split; [reflexivity|]. right. reflexivity. }
  destruct Hreq as (endpoint & config & -> & Hh).
  destruct (part0_request_merges_default_headers axios JSON_stringify
              JSON_stringify_body this endpoint config)
    as (dispatched & hs & tr & Htr & Hhs & Hget).
  exists dispatched, hs, tr. split; [exact Htr|]. split; [exact Hhs|].
  destruct (get_defaultHeaders (Part0.clientId this) (Part0.clientSecret this)
              (Part0.sourceSystem this)) as (H1 & H2 & H3 & H4).
  assert (Hempty : forall k,
             get (match Config.headers config with HObject h => h | _ => ∅ end) k
             = VUndefined).
  { intros k. destruct Hh as [-> | ->]; reflexivity. }
  rewrite !Hget, !Hempty. auto.
Qed.

(** *** Errors *)


(** Without a logger nothing is written. *)
Lemma logging_ready_without_logger {Body} (options : option Options.t)
    (r : Response.t Body) :
  logging_ready (Part0.ArcCre options None) r.
Proof. exact I. Qed.

(** [_request] of src/lib/ArcCre.js on a rejection. *)
Lemma lib_request_rejected {Body} (axios : transport Body) (this : Lib.client)
    (config : Config.t) (e : Err.t Body) :
  (forall c, Config.url c = Config.url config -> axios c = Throw e) ->
  snd (Lib._request axios this config)
  = match Err.response e with
    | None => Throw (Err.TypeError "status")
    | Some r =>
        Throw
          (Err.mk "Error"
             (num_to_string (Response.status r) ++ " - "
                ++ to_string (Config.url config) ++ " failed")
             None (VNum (Response.status r)) (Some (Response.data r)))
    end.
Proof.
  intros Hax. unfold Lib._request, try_catch, bind, dispatch.
  match goal with |- context [axios ?c] => rewrite (Hax c) end.
  - destruct (Err.response e); destruct (Config.headers config); reflexivity.
  - destruct (Config.headers config); reflexivity.
Qed.

(** [_request] of part_000 on a rejection that carries no response: only the
    dispatch happens and the transport's error comes out as it is. *)
Lemma part0_request_unanswered {Body} (axios : transport Body)
    (JSON_stringify : value -> value) (JSON_stringify_body : Body -> value)
    (this : Part0.client) (endpoint : string) (config : Config.t)
    (e : Err.t Body) :
  (forall c, Config.url c = VStr (Part0._buildApiUrl this endpoint) ->
             axios c = Throw e) ->
  Err.response e = None ->
  exists dispatched,
    Part0._request axios JSON_stringify JSON_stringify_body this endpoint config
    = ([ Dispatch dispatched ], Throw e).
Proof.
  intros Hax Hnone. unfold Part0._request, try_catch, bind, dispatch.
  match goal with |- context [axios ?c] => rewrite (Hax c eq_refl) end.
  rewrite Hnone. simpl. eexists. reflexivity.
Qed.


(** A logger passed without [loggerConfig] makes the log write itself raise,
    which then replaces the outcome of the request. *)
Lemma part0_logger_without_config_raises :
  snd (Part0.getCRE (Fixture.answering Fixture.not_found) Fixture.stringify
         Fixture.stringify_body
         (Part0.ArcCre (Some Fixture.credentials) (Some Fixture.quiet_logger))
         (VStr "OFF-1"))
  = Throw (Err.TypeError "url").
Proof. vm_compute. reflexivity. Qed.

(** C4, at a network failure under src/lib/ArcCre.js: each operation raises
    a [TypeError] of its own (the catch block reads [e.response.status] with
    no response there) in place of the transport's error. *)
Theorem lib_network_failure_raises_type_error :
  let this := Lib.ArcCre (Some Fixture.credentials) in
  Err.response Fixture.network_error = None
  /\ snd (Lib.ping Fixture.network_down this) = Throw (Err.TypeError "status")
  /\ snd (Lib.getCRE Fixture.network_down this (VStr "OFF-1"))
     = Throw (Err.TypeError "status")
  /\ snd (Lib.createCRE Fixture.network_down this (VStr "ORG1") (VNum 7)
            (VNum 42) [ Fixture.instructor ])
     = Throw (Err.TypeError "status")
  /\ @Err.TypeError string "status" <> Fixture.network_error.
Proof.
  intros this. split; [reflexivity|].
  split; [|split; [|split]].
  - unfold Lib.ping, Lib._get.
    now rewrite (lib_request_rejected _ _ _ Fixture.network_error).
  - unfold Lib.getCRE, Lib._get.
    now rewrite (lib_request_rejected _ _ _ Fixture.network_error).
  - unfold Lib.createCRE, Lib._post.
    now rewrite (lib_request_rejected _ _ _ Fixture.network_error).
  - discriminate.
Qed.

(** X10. Under part_000 all three operations hand the transport's error on
    as it is when it carries no response, and write no log line. *)
Lemma part0_network_failure_propagates {Body} (axios : transport Body)
    (JSON_stringify : value -> value) (JSON_stringify_body : Body -> value)
    (this : Part0.client) (e : Err.t Body)
    (organizationId batchId classId offeringId : value) (options : list obj) :
  (forall c, axios c = Throw e) ->
  Err.response e = None ->
  (exists d, Part0.ping axios JSON_stringify JSON_stringify_body this
             = ([ Dispatch d ], Throw e))
  /\ (exists d, Part0.getCRE axios JSON_stringify JSON_stringify_body this
                  offeringId = ([ Dispatch d ], Throw e))
  /\ (exists d, Part0.createCRE axios JSON_stringify JSON_stringify_body this
                  organizationId batchId classId options
                = ([ Dispatch d ], Throw e)).
Proof.
  intros Hax Hnone. repeat split.
  - unfold Part0.ping, Part0.get. apply part0_request_unanswered; auto.
  - unfold Part0.getCRE, Part0.get. apply part0_request_unanswered; auto.
  - unfold Part0.createCRE, Part0.post. apply part0_request_unanswered; auto.
Qed.

Lemma lib_message_names_url (status url : string) :
  contains url (status ++ " - " ++ url ++ " failed") = true.
Proof.
  rewrite <- (string_app_assoc status " - " (url ++ " failed")).
  apply contains_app.
Qed.

Lemma lib_request_reports_upstream {Body} (axios : transport Body)
    (this : Lib.client) (config : Config.t) (url : string) (e : Err.t Body)
    (r : Response.t Body) :
  (forall c, axios c = Throw e) ->
  Err.response e = Some r ->
  Config.url config = VStr url ->
  upstream_error_reported url r (snd (Lib._request axios this config)).
Proof.
  intros Hax Hr Hurl.
  rewrite (lib_request_rejected axios this config e) by (intros; apply Hax).
  rewrite Hr, Hurl. eexists. split; [reflexivity|]. split.
  - left. split; reflexivity.
  - apply lib_message_names_url.
Qed.

Lemma fixture_logging_ready (r : Response.t string) :
  Response.request_path r <> None ->
  logging_ready
    (Part0.ArcCre (Some Fixture.with_logging) (Some Fixture.quiet_logger)) r.
Proof.
  intros Hpath. split.
  - eexists. split; [reflexivity|]. intros _. exact Hpath.
  - reflexivity.
Defined.










(** ** Further properties of the two clients *)

(** *** The request routines, flattened *)

Lemma lib_request_unfold {Body} (axios : transport Body) (this : Lib.client)
    (config : Config.t) :
  Lib._request axios this config
  = ([ Dispatch (lib_dispatched this config) ],
     match axios (lib_dispatched this config) with
     | Return r => Return (Response.data r)
     | Throw e =>
         match Err.response e with
         | None => Throw (Err.TypeError "status")
         | Some r =>
             Throw
               (Err.mk "Error"
                  (num_to_string (Response.status r) ++ " - "
                     ++ to_string (Config.url config) ++ " failed")
                  None (VNum (Response.status r)) (Some (Response.data r)))
         end
     end).
Proof.
  unfold Lib._request, lib_dispatched, try_catch, bind, dispatch.
  destruct config as [m u p d h t]; simpl.
  destruct h as [| |h]; simpl;
    (match goal with |- context [axios ?c] => destruct (axios c) as [r|e] end);
    simpl; try reflexivity; destruct (Err.response e); reflexivity.
Qed.

Lemma part0_request_unfold {Body} (axios : transport Body)
    (JSON_stringify : value -> value) (JSON_stringify_body : Body -> value)
    (this : Part0.client) (endpoint : string) (config : Config.t) :
  Part0._request axios JSON_stringify JSON_stringify_body this endpoint config
  = let d := part0_dispatched this endpoint config in
    match axios d with
    | Return r =>
        let (logs, o) :=
          Part0._writeLog JSON_stringify JSON_stringify_body this endpoint d r
            VUndefined in
        (Dispatch d :: logs,
         match o with
         | Return _ => Return (Some (Response.data r))
         | Throw e' => Throw e'
         end)
    | Throw e =>
        match Err.response e with
        | None => ([ Dispatch d ], Throw e)
        | Some r =>
            let (logs, o) :=
              Part0._writeLog JSON_stringify JSON_stringify_body this endpoint
                d r (VStr "error") in
            (Dispatch d :: logs,
             match o with
             | Return _ =>
                 if Response.status r =? 404 then Return None else Throw e
             | Throw e' => Throw e'
             end)
        end
    end.
Proof.
  unfold Part0._request, part0_dispatched, try_catch, bind, dispatch, ret, throw.
  cbv zeta.
  match goal with |- context [axios ?c] => destruct (axios c) as [r|e] end.
  - simpl. destruct (Part0._writeLog _ _ _ _ _ _ _) as [logs [[]|e]]; simpl;
      rewrite ?app_nil_r; reflexivity.
  - destruct (Err.response e) as [r|]; simpl; [|reflexivity].
    destruct (Part0._writeLog _ _ _ _ _ _ _) as [logs [[]|e']]; simpl.
    + destruct (Response.status r =? 404); simpl; rewrite ?app_nil_r; reflexivity.
    + rewrite ?app_nil_r. reflexivity.
Qed.

(** The log write calls the logger at most once and dispatches nothing. *)
Lemma writeLog_trace {Body} (JSON_stringify : value -> value)
    (JSON_stringify_body : Body -> value) (this : Part0.client)
    (endpoint : string) (config : Config.t) (r : Response.t Body)
    (level : value) :
  fst (Part0._writeLog JSON_stringify JSON_stringify_body this endpoint config
         r level) = []
  \/ exists lv line,
      fst (Part0._writeLog JSON_stringify JSON_stringify_body this endpoint
             config r level) = [ LogCall lv line ].
Proof.
  unfold Part0._writeLog.
  destruct (Part0.logger this) as [lg|]; [|left; reflexivity].
  destruct (Part0.loggerConfig this) as [lc|]; [|left; reflexivity].
  unfold bind, ret, throw, emit. simpl.
  destruct (truthy (get lc "params")).
  - destruct (Response.request_path r) as [path|]; [|left; reflexivity].
    simpl. match goal with |- context [lg ?a ?b] => destruct (lg a b) end;
      right; eexists; eexists; reflexivity.
  - simpl. match goal with |- context [lg ?a ?b] => destruct (lg a b) end;
      right; eexists; eexists; reflexivity.
Qed.

(** *** Construction *)

Lemma or_else_truthy (a b : value) :
  truthy b = true -> truthy (or_else a b) = true.
Proof. intros Hb. unfold or_else. destruct (truthy a) eqn:E; assumption. Qed.

(** X1. Whatever the options (none at all, falsy values such as [0], [""]
    or [null], or anything else), the constructed client of either
    implementation has a truthy API version and host, and that of part_000
    also a truthy protocol, timeout and log level: a falsy option always
    gives way to the alias or the built-in default. *)
Theorem constructor_fields_are_truthy {Body} (options : option Options.t)
    (logger : option (@Part0.Logger Body)) :
  truthy (Lib.apiVersion (Lib.ArcCre options)) = true
  /\ truthy (Lib.host (Lib.ArcCre options)) = true
  /\ truthy (Part0.apiVersion (Part0.ArcCre options logger)) = true
  /\ truthy (Part0.host (Part0.ArcCre options logger)) = true
  /\ truthy (Part0.protocol (Part0.ArcCre options logger)) = true
  /\ truthy (Part0.timeout (Part0.ArcCre options logger)) = true
  /\ truthy (Part0.logLevel (Part0.ArcCre options logger)) = true.
Proof.
  unfold Lib.ArcCre, Part0.ArcCre; simpl.
  repeat split; repeat apply or_else_truthy; reflexivity.
Qed.

(** *** URL construction for any endpoint *)

(** X2. In both implementations the endpoint is appended behind exactly one
    added separator when it has none, and verbatim when it starts with one
    (a second leading separator is kept, and the empty endpoint yields the
    base followed by the separator alone). *)
Theorem url_separator_for_any_endpoint {Body} (lib : Lib.client)
    (part : @Part0.client Body) (endpoint : string) :
  let lib_base :=
    "https://" ++ to_string (Lib.host lib) ++ "/v"
      ++ to_string (Lib.apiVersion lib) in
  let part_base :=
    to_string (Part0.protocol part) ++ "://" ++ to_string (Part0.host part)
      ++ "/course/recordentry/eapi/v" ++ to_string (Part0.apiVersion part) in
  Lib._buildApiUrl lib ("/" ++ endpoint) = lib_base ++ "/" ++ endpoint
  /\ Part0._buildApiUrl part ("/" ++ endpoint) = part_base ++ "/" ++ endpoint
  /\ (first_char endpoint <> "/" ->
      Lib._buildApiUrl lib endpoint = lib_base ++ "/" ++ endpoint
      /\ Part0._buildApiUrl part endpoint = part_base ++ "/" ++ endpoint).
Proof.
  intros lib_base part_base. subst lib_base part_base.
  assert (Hl : Lib._buildApiUrl lib ("/" ++ endpoint)
               = ("https://" ++ to_string (Lib.host lib) ++ "/v"
                    ++ to_string (Lib.apiVersion lib)) ++ "/" ++ endpoint).
  { unfold Lib._buildApiUrl.
    change (first_char ("/" ++ endpoint)) with "/".
    change (negb (String.eqb "/" "/")) with false. cbv iota.
    rewrite !string_app_assoc. reflexivity. }
  assert (Hp : Part0._buildApiUrl part ("/" ++ endpoint)
               = (to_string (Part0.protocol part) ++ "://"
                    ++ to_string (Part0.host part)
                    ++ "/course/recordentry/eapi/v"
                    ++ to_string (Part0.apiVersion part)) ++ "/" ++ endpoint).
  { unfold Part0._buildApiUrl, Part0._buildScheme, Part0._buildPath.
    change (first_char ("/" ++ endpoint)) with "/".
    change (negb (String.eqb "/" "/")) with false. cbv iota.
    rewrite !string_app_assoc. reflexivity. }
  split; [exact Hl|]. split; [exact Hp|].
  intros Hne. split.
  - rewrite <- Hl. now apply lib_url_leading_separator.
  - rewrite <- Hp. unfold Part0._buildApiUrl.
    now rewrite (part0_path_leading_separator part endpoint).
Qed.

Lemma url_separator_for_any_endpoint_witness :
  Lib._buildApiUrl (Lib.ArcCre None) "ping"
  = ("https://" ++ QA_HOST ++ "/v" ++ "1") ++ "/" ++ "ping"
  /\ Part0._buildApiUrl (@Part0.ArcCre string None None) ""
     = ("https" ++ "://" ++ QA_HOST ++ "/course/recordentry/eapi/v" ++ "1")
         ++ "/" ++ "".
Proof.
  split.
  - apply (url_separator_for_any_endpoint (Lib.ArcCre None)
             (@Part0.ArcCre string None None) "ping"). discriminate.
  - apply (url_separator_for_any_endpoint (Lib.ArcCre None)
             (@Part0.ArcCre string None None) ""). discriminate.
Defined.

(** *** Serialization of a batch *)

Lemma layout_lines_app (organizationId batchId classId : value)
    (code : Documented.record_kind -> string)
    (fields : Documented.record_kind -> obj -> list value)
    (xs ys : list obj) :
  Documented.lines organizationId batchId classId code fields (xs ++ ys)
  = (Documented.lines organizationId batchId classId code fields xs
       ++ Documented.lines organizationId batchId classId code fields ys)%list.
Proof. unfold Documented.lines. apply flat_map_app. Qed.

(** X3. In both implementations the lines of a batch made of two parts are
    the lines of the first part followed by those of the second: records are
    serialized one by one, in input order, independently of their
    neighbours. *)
Theorem createCRE_lines_of_concatenation {Body} (part : @Part0.client Body)
    (organizationId batchId classId : value) (xs ys : list obj) :
  Lib.createCRE_lines organizationId batchId classId (xs ++ ys)
  = (Lib.createCRE_lines organizationId batchId classId xs
       ++ Lib.createCRE_lines organizationId batchId classId ys)%list
  /\ Part0.createCRE_lines part organizationId batchId classId (xs ++ ys)
     = (Part0.createCRE_lines part organizationId batchId classId xs
          ++ Part0.createCRE_lines part organizationId batchId classId ys)%list.
Proof.
  split.
  - rewrite !lib_lines_shape. apply layout_lines_app.
  - rewrite !part0_lines_follow_layout. apply layout_lines_app.
Qed.

Lemma join_strings_app (sep : string) (l1 l2 : list string) :
  l1 <> [] -> l2 <> [] ->
  join_strings sep (l1 ++ l2)
  = join_strings sep l1 ++ sep ++ join_strings sep l2.
Proof.
  intros H1 H2. induction l1 as [|s l1 IH]; [contradiction|].
  destruct l1 as [|s' l1].
  - destruct l2 as [|y l2]; [contradiction|]. reflexivity.
  - change (join_strings sep ((s :: s' :: l1) ++ l2))
      with (s ++ sep ++ join_strings sep ((s' :: l1) ++ l2)).
    rewrite IH by discriminate.
    change (join_strings sep (s :: s' :: l1))
      with (s ++ sep ++ join_strings sep (s' :: l1)).
    rewrite !string_app_assoc. reflexivity.
Qed.

(** X4. When both parts of a batch yield at least one line, the body of the
    whole batch is the body of the first part, one line break (CRLF in
    src/lib/ArcCre.js, LF in part_000), and the body of the second: the
    line break separates lines and never ends the body. *)
Theorem createCRE_body_of_concatenation {Body} (part : @Part0.client Body)
    (organizationId batchId classId : value) (xs ys : list obj) :
  (Lib.createCRE_lines organizationId batchId classId xs <> [] ->
   Lib.createCRE_lines organizationId batchId classId ys <> [] ->
   Lib.createCRE_body organizationId batchId classId (xs ++ ys)
   = Lib.createCRE_body organizationId batchId classId xs
       ++ (CR ++ LF)
       ++ Lib.createCRE_body organizationId batchId classId ys)
  /\ (Part0.createCRE_lines part organizationId batchId classId xs <> [] ->
      Part0.createCRE_lines part organizationId batchId classId ys <> [] ->
      Part0.createCRE_body part organizationId batchId classId (xs ++ ys)
      = Part0.createCRE_body part organizationId batchId classId xs
          ++ LF
          ++ Part0.createCRE_body part organizationId batchId classId ys).
Proof.
  split; intros Hx Hy.
  - unfold Lib.createCRE_body.
    rewrite lib_lines_shape, layout_lines_app, <- !lib_lines_shape.
    now apply join_strings_app.
  - unfold Part0.createCRE_body.
    rewrite part0_lines_follow_layout, layout_lines_app,
      <- !part0_lines_follow_layout.
    now apply join_strings_app.
Qed.

Lemma createCRE_body_of_concatenation_witness :
  Part0.createCRE_body (@Part0.ArcCre string (Some Fixture.credentials) None)
    (VStr "ORG1") (VNum 7) (VNum 42)
    ([ Fixture.instructor ] ++ [ Fixture.stray; Fixture.student ])
  = Part0.createCRE_body (@Part0.ArcCre string (Some Fixture.credentials) None)
      (VStr "ORG1") (VNum 7) (VNum 42) [ Fixture.instructor ]
      ++ LF
      ++ Part0.createCRE_body
           (@Part0.ArcCre string (Some Fixture.credentials) None)
           (VStr "ORG1") (VNum 7) (VNum 42) [ Fixture.stray; Fixture.student ].
Proof.
  apply (createCRE_body_of_concatenation
           (@Part0.ArcCre string (Some Fixture.credentials) None)
           (VStr "ORG1") (VNum 7) (VNum 42)
           [ Fixture.instructor ] [ Fixture.stray; Fixture.student ]).
  - vm_compute. discriminate.
  - vm_compute. discriminate.
Defined.

(** X5. A batch in which no record carries one of the three codes (the empty
    batch included) still goes out: both implementations POST to the [cre]
    endpoint with the empty string as body. *)
Theorem batch_without_lines_is_still_posted {Body} (axios : transport Body)
    (JSON_stringify : value -> value) (JSON_stringify_body : Body -> value)
    (lib : Lib.client) (part : Part0.client)
    (organizationId batchId classId : value) (options : list obj) :
  List.filter Documented.recognized options = [] ->
  fst (Lib.createCRE axios lib organizationId batchId classId options)
  = [ Dispatch
        (Config.mk "post" (VStr (Lib._buildApiUrl lib "/cre")) ∅ (VStr "")
           HNull VUndefined) ]
  /\ exists d logs,
      fst (Part0.createCRE axios JSON_stringify JSON_stringify_body part
             organizationId batchId classId options) = Dispatch d :: logs
      /\ Config.method d = "POST"
      /\ Config.url d = VStr (Part0._buildApiUrl part "/cre")
      /\ Config.params d = ∅
      /\ Config.data d = VStr "".
Proof.
  intros Hnone.
  assert (Hl : Lib.createCRE_body organizationId batchId classId options = "").
  { unfold Lib.createCRE_body. rewrite lib_lines_shape.
    destruct (layout_lines_skip_unrecognized organizationId batchId classId
                (fun _ => "A") Documented.fields_plain options) as [-> _].
    rewrite Hnone. reflexivity. }
  assert (Hp : Part0.createCRE_body part organizationId batchId classId options
               = "").
  { unfold Part0.createCRE_body. rewrite part0_lines_follow_layout.
    destruct (layout_lines_skip_unrecognized organizationId batchId classId
                Documented.code
                (Documented.fields_with_source organizationId
                   (Part0.sourceSystem part)) options) as [-> _].
    rewrite Hnone. reflexivity. }
  split.
  - unfold Lib.createCRE, Lib._post. rewrite lib_request_unfold, Hl. reflexivity.
  - unfold Part0.createCRE, Part0.post. rewrite part0_request_unfold, Hp.
    cbv zeta.
    match goal with |- context [axios ?c] => destruct (axios c) as [r|e] end.
    + destruct (Part0._writeLog _ _ _ _ _ _ _) as [logs o].
      eexists. exists logs. repeat split.
    + destruct (Err.response e) as [r|].
      * destruct (Part0._writeLog _ _ _ _ _ _ _) as [logs o].
        eexists. exists logs. repeat split.
      * eexists. exists []. repeat split.
Qed.

Lemma batch_without_lines_is_still_posted_witness :
  fst (Lib.createCRE Fixture.network_down (Lib.ArcCre None) (VStr "ORG1")
         (VNum 7) (VNum 42) [ Fixture.stray ])
  = [ Dispatch
        (Config.mk "post" (VStr (Lib._buildApiUrl (Lib.ArcCre None) "/cre")) ∅
           (VStr "") HNull VUndefined) ].
Proof.
  apply (batch_without_lines_is_still_posted Fixture.network_down
           Fixture.stringify Fixture.stringify_body (Lib.ArcCre None)
           (Part0.ArcCre None None) (VStr "ORG1") (VNum 7) (VNum 42)
           [ Fixture.stray ]).
  vm_compute. reflexivity.
Defined.

Lemma part0_lines_start_with_leading_columns_witness :
  exists record k,
    In record [ Fixture.stray; Fixture.student ]
    /\ Documented.kind_of record = Some k
    /\ get record "type" = VStr (Documented.code k)
    /\ "ORG1|7|42|C|Tim|Roe|tim@example.org|555-0100|Pass|none"
       = join "|"
           ([ VStr "ORG1"; VNum 7; VNum 42; get record "type" ]
              ++ Documented.fields_with_source (VStr "ORG1")
                   (Part0.sourceSystem
                      (@Part0.ArcCre string (Some Fixture.credentials) None))
                   k record)%list.
Proof.
  apply (part0_lines_start_with_leading_columns
           (@Part0.ArcCre string (Some Fixture.credentials) None)
           (VStr "ORG1") (VNum 7) (VNum 42)
           [ Fixture.stray; Fixture.student ]).
  vm_compute. left. reflexivity.
Defined.

(** Two records with the same discriminant whose properties render alike
    under [join] give the same line in either layout. *)
Lemma layout_line_ext (organizationId batchId classId sourceSystem : value)
    (r1 r2 : obj) :
  get r1 "type" = get r2 "type" ->
  (forall f, join_item (get r1 f) = join_item (get r2 f)) ->
  Documented.lines organizationId batchId classId (fun _ => "A")
    Documented.fields_plain [ r1 ]
  = Documented.lines organizationId batchId classId (fun _ => "A")
      Documented.fields_plain [ r2 ]
  /\ Documented.lines organizationId batchId classId Documented.code
       (Documented.fields_with_source organizationId sourceSystem) [ r1 ]
     = Documented.lines organizationId batchId classId Documented.code
         (Documented.fields_with_source organizationId sourceSystem) [ r2 ].
Proof.
  intros Htype Hf.
  unfold Documented.lines, Documented.kind_of. simpl. rewrite <- Htype.
  destruct (get r1 "type") as [| |b|n|t]; try (split; reflexivity).
  destruct (String.eqb t "A"); [|destruct (String.eqb t "B");
                                  [|destruct (String.eqb t "C")]].
  all: try (split; reflexivity).
  all: unfold Documented.line, join, Documented.fields_plain,
         Documented.fields_with_source, Documented.offering_fields,
         Documented.instructor_fields, Documented.student_fields;
       simpl List.map; split; rewrite !Hf; reflexivity.
Qed.

(** X7. A property set to [null], set to [undefined], or left out altogether
    serializes to the same (empty) column: in both implementations the three
    records give the same line, for every property other than [type]. *)
Theorem null_undefined_and_missing_serialize_alike {Body}
    (part : @Part0.client Body) (organizationId batchId classId : value)
    (record : obj) (k : string) :
  k <> "type" ->
  let with_null : obj := <[k := VNull]> record in
  let with_undefined : obj := <[k := VUndefined]> record in
  let without : obj := delete k record in
  Lib.createCRE_lines organizationId batchId classId [ with_null ]
  = Lib.createCRE_lines organizationId batchId classId [ without ]
  /\ Lib.createCRE_lines organizationId batchId classId [ with_undefined ]
     = Lib.createCRE_lines organizationId batchId classId [ without ]
  /\ Part0.createCRE_lines part organizationId batchId classId [ with_null ]
     = Part0.createCRE_lines part organizationId batchId classId [ without ]
  /\ Part0.createCRE_lines part organizationId batchId classId [ with_undefined ]
     = Part0.createCRE_lines part organizationId batchId classId [ without ].
Proof.
  intros Hk with_null with_undefined without.
  assert (Hget : forall v f,
             f <> k -> get (<[k := v]> record) f = get (delete k record) f).
  { intros v f Hne. unfold get.
    rewrite lookup_insert_ne by congruence.
    rewrite lookup_delete_ne by congruence. reflexivity. }
  assert (Hitem : forall v f,
             join_item v = "" ->
             join_item (get (<[k := v]> record) f)
             = join_item (get (delete k record) f)).
  { intros v f Hv. destruct (decide (f = k)) as [->|Hne].
    - unfold get. rewrite lookup_insert_eq, lookup_delete_eq. exact Hv.
    - now rewrite Hget. }
  destruct (layout_line_ext organizationId batchId classId
              (Part0.sourceSystem part) with_null without) as [Hl1 Hp1].
  { apply Hget. congruence. }
  { intros f. now apply Hitem. }
  destruct (layout_line_ext organizationId batchId classId
              (Part0.sourceSystem part) with_undefined without) as [Hl2 Hp2].
  { apply Hget. congruence. }
  { intros f. now apply Hitem. }
  rewrite !lib_lines_shape, !part0_lines_follow_layout. auto.
Qed.

Lemma null_undefined_and_missing_serialize_alike_witness :
  Lib.createCRE_lines (VStr "ORG1") (VNum 7) (VNum 42)
    [ <["email" := VNull]> Fixture.instructor ]
  = Lib.createCRE_lines (VStr "ORG1") (VNum 7) (VNum 42)
      [ delete "email" Fixture.instructor ].
Proof.
  apply (null_undefined_and_missing_serialize_alike
           (@Part0.ArcCre string None None) (VStr "ORG1") (VNum 7) (VNum 42)
           Fixture.instructor "email").
  discriminate.
Defined.

(** *** Headers *)

Lemma part0_operations_send_default_headers_witness :
  exists dispatched hs tr,
    fst (Part0.ping Fixture.network_down Fixture.stringify
           Fixture.stringify_body
           (Part0.ArcCre (Some Fixture.credentials) None))
    = Dispatch dispatched :: tr
    /\ Config.headers dispatched = HObject hs
    /\ get hs "client_id" = VStr "id-1"
    /\ get hs "client_secret" = VStr "s3cr3t"
    /\ get hs "Content-Type" = VStr "text/plain"
    /\ get hs "source_system" = VStr "LMS".
Proof.
  apply (part0_operations_send_default_headers Fixture.network_down
           Fixture.stringify Fixture.stringify_body
           (Part0.ArcCre (Some Fixture.credentials) None)).
  left. reflexivity.
Defined.

Lemma get_defaultHeaders_other (clientId clientSecret sourceSystem : value)
    (k : string) :
  ~ In k default_header_names ->
  get (defaultHeaders clientId clientSecret sourceSystem) k = VUndefined.
Proof.
  intros Hk. unfold defaultHeaders, get.
  rewrite !lookup_insert_ne; [reflexivity|..];
    intros <-; apply Hk; simpl; auto.
Qed.

Lemma defaults_headers_merged (caller : obj) (config : Config.t)
    (logs : list event) (a b c : value) :
  Config.headers config = HObject (defaults caller (defaultHeaders a b c)) ->
  headers_merged caller (defaultHeaders a b c) (Dispatch config :: logs).
Proof.
  intros Hh. exists config, logs, (defaults caller (defaultHeaders a b c)).
  split; [reflexivity|]. split; [exact Hh|]. split.
  - intros k. apply get_defaults.
  - intros k Hk. rewrite get_defaults, get_defaultHeaders_other by exact Hk.
    destruct (get caller k); reflexivity.
Qed.

(** X9. When the caller hands a headers object to the request helpers
    ([_get], [_post] of src/lib/ArcCre.js; [get], [post] of part_000), the
    request goes out with that object completed from the four defaults: a
    caller value other than [undefined] (so also [null]) is kept, an
    [undefined] one is replaced by the default, and headers under any other
    name pass through untouched. *)
Theorem caller_headers_object_is_merged {Body} (axios : transport Body)
    (JSON_stringify : value -> value) (JSON_stringify_body : Body -> value)
    (lib : Lib.client) (part : Part0.client) (endpoint : string)
    (params : option obj) (data : value) (h : obj) :
  let lib_defaults :=
    defaultHeaders (Lib.clientId lib) (Lib.clientSecret lib)
      (Lib.sourceSystem lib) in
  let part_defaults :=
    defaultHeaders (Part0.clientId part) (Part0.clientSecret part)
      (Part0.sourceSystem part) in
  headers_merged h lib_defaults
    (fst (Lib._get axios lib endpoint params (HObject h)))
  /\ headers_merged h lib_defaults
       (fst (Lib._post axios lib endpoint params data (HObject h)))
  /\ headers_merged h part_defaults
       (fst (Part0.get axios JSON_stringify JSON_stringify_body part endpoint
               params (HObject h)))
  /\ headers_merged h part_defaults
       (fst (Part0.post axios JSON_stringify JSON_stringify_body part endpoint
               params data (HObject h))).
Proof.
  intros lib_defaults part_defaults. subst lib_defaults part_defaults.
  split; [|split; [|split]].
  - unfold Lib._get. rewrite lib_request_unfold.
    now apply defaults_headers_merged.
  - unfold Lib._post. rewrite lib_request_unfold.
    now apply defaults_headers_merged.
  - unfold Part0.get.
    destruct (part0_request_dispatches axios JSON_stringify
                JSON_stringify_body part endpoint
                (Config.mk "GET" VUndefined
                   (match params with Some p => p | None => ∅ end)
                   VUndefined (HObject h) VUndefined)) as [tr ->].
    now apply defaults_headers_merged.
  - unfold Part0.post.
    destruct (part0_request_dispatches axios JSON_stringify
                JSON_stringify_body part endpoint
                (Config.mk "POST" VUndefined
                   (match params with Some p => p | None => ∅ end)
                   data (HObject h) VUndefined)) as [tr ->].
    now apply defaults_headers_merged.
Qed.

(** *** Outcomes *)

Lemma part0_network_failure_propagates_witness :
  exists d,
    Part0.ping Fixture.network_down Fixture.stringify Fixture.stringify_body
      (Part0.ArcCre (Some Fixture.with_logging) (Some Fixture.quiet_logger))
    = ([ Dispatch d ], Throw Fixture.network_error).
Proof.
  apply (part0_network_failure_propagates Fixture.network_down
           Fixture.stringify Fixture.stringify_body
           (Part0.ArcCre (Some Fixture.with_logging)
              (Some Fixture.quiet_logger))
           Fixture.network_error (VStr "ORG1") (VNum 7) (VNum 42)
           (VStr "OFF-1") [ Fixture.instructor ]).
  - intros c. reflexivity.
  - reflexivity.
Defined.




(** *** One exchange per call *)

Lemma part0_request_single_exchange {Body} (axios : transport Body)
    (JSON_stringify : value -> value) (JSON_stringify_body : Body -> value)
    (this : Part0.client) (endpoint : string) (config : Config.t) :
  single_exchange (part0_dispatched this endpoint config)
    (fst (Part0._request axios JSON_stringify JSON_stringify_body this endpoint
            config)).
Proof.
  rewrite part0_request_unfold. cbv zeta. unfold single_exchange.
  destruct (axios _) as [r|e].
  - destruct (writeLog_trace JSON_stringify JSON_stringify_body this endpoint
                (part0_dispatched this endpoint config) r VUndefined)
      as [H|(lv & line & H)];
      destruct (Part0._writeLog _ _ _ _ _ _ _) as [logs o]; simpl in *;
      subst logs; [left|right; exists lv, line]; reflexivity.
  - destruct (Err.response e) as [r|]; [|left; reflexivity].
    destruct (writeLog_trace JSON_stringify JSON_stringify_body this endpoint
                (part0_dispatched this endpoint config) r (VStr "error"))
      as [H|(lv & line & H)];
      destruct (Part0._writeLog _ _ _ _ _ _ _) as [logs o]; simpl in *;
      subst logs; [left|right; exists lv, line]; reflexivity.
Qed.

(** X12. Whatever the transport does (answer, reject with or without a
    response), each operation hands it exactly one request and never a
    second one: the trace of an operation of src/lib/ArcCre.js is that one
    dispatch, and the trace of an operation of part_000 is that one dispatch
    followed by at most one call of the logger. *)
Theorem each_operation_is_one_exchange {Body} (axios : transport Body)
    (JSON_stringify : value -> value) (JSON_stringify_body : Body -> value)
    (lib : Lib.client) (part : Part0.client)
    (organizationId batchId classId offeringId : value) (options : list obj) :
  ((exists d, fst (Lib.ping axios lib) = [ Dispatch d ])
   /\ (exists d, fst (Lib.getCRE axios lib offeringId) = [ Dispatch d ])
   /\ (exists d, fst (Lib.createCRE axios lib organizationId batchId classId
                        options) = [ Dispatch d ]))
  /\ ((exists d, single_exchange d
                   (fst (Part0.ping axios JSON_stringify JSON_stringify_body
                           part)))
      /\ (exists d, single_exchange d
                      (fst (Part0.getCRE axios JSON_stringify
                              JSON_stringify_body part offeringId)))
      /\ (exists d, single_exchange d
                      (fst (Part0.createCRE axios JSON_stringify
                              JSON_stringify_body part organizationId batchId
                              classId options)))).
Proof.
  split; (split; [|split]); eexists.
  - unfold Lib.ping, Lib._get. now rewrite lib_request_unfold.
  - unfold Lib.getCRE, Lib._get. now rewrite lib_request_unfold.
  - unfold Lib.createCRE, Lib._post. now rewrite lib_request_unfold.
  - unfold Part0.ping, Part0.get. apply part0_request_single_exchange.
  - unfold Part0.getCRE, Part0.get. apply part0_request_single_exchange.
  - unfold Part0.createCRE, Part0.post. apply part0_request_single_exchange.
Qed.

(** X13. A client of part_000 built by the constructor puts a timeout on
    every request it dispatches, the configured one or else 180000 ms (a
    falsy [timeout] option, [0] included, selects the default), while the
    operations of src/lib/ArcCre.js leave the timeout unset. *)
Theorem timeout_on_every_request {Body} (axios : transport Body)
    (JSON_stringify : value -> value) (JSON_stringify_body : Body -> value)
    (options : Options.t) (logger : option Part0.Logger) (lib : Lib.client)
    (endpoint : string) (config : Config.t)
    (organizationId batchId classId offeringId : value) (records : list obj) :
  let this := Part0.ArcCre (Some options) logger in
  (exists d,
      single_exchange d
        (fst (Part0._request axios JSON_stringify JSON_stringify_body this
                endpoint config))
      /\ Config.timeout d
         = (if truthy (Options.timeout options) then Options.timeout options
            else VNum 180000)
      /\ truthy (Config.timeout d) = true)
  /\ (exists d, fst (Lib.ping axios lib) = [ Dispatch d ]
                /\ Config.timeout d = VUndefined)
  /\ (exists d, fst (Lib.getCRE axios lib offeringId) = [ Dispatch d ]
                /\ Config.timeout d = VUndefined)
  /\ (exists d, fst (Lib.createCRE axios lib organizationId batchId classId
                       records) = [ Dispatch d ]
                /\ Config.timeout d = VUndefined).
Proof.
  intros this. split; [|split; [|split]].
  - exists (part0_dispatched this endpoint config).
    split; [apply part0_request_single_exchange|].
    assert (Ht : truthy (Part0.timeout this) = true).
    { subst this. simpl. now apply or_else_truthy. }
    unfold part0_dispatched. cbn [Config.timeout]. rewrite Ht.
    split; [reflexivity | exact Ht].
  - eexists. unfold Lib.ping, Lib._get. rewrite lib_request_unfold.
    split; reflexivity.
  - eexists. unfold Lib.getCRE, Lib._get. rewrite lib_request_unfold.
    split; reflexivity.
  - eexists. unfold Lib.createCRE, Lib._post. rewrite lib_request_unfold.
    split; reflexivity.
Qed.

(** *** Logging *)

(** With a logger and logging ready, the log write is exactly one call of
    the logger, at the level passed or else at the client's own. *)
Lemma writeLog_logs_once {Body} (JSON_stringify : value -> value)
    (JSON_stringify_body : Body -> value) (this : Part0.client)
    (logger : Part0.Logger) (endpoint : string) (config : Config.t)
    (r : Response.t Body) (level : value) :
  Part0.logger this = Some logger ->
  logging_ready this r ->
  exists line,
    Part0._writeLog JSON_stringify JSON_stringify_body this endpoint config r
      level
    = ([ LogCall
           (to_string
              (match level with VUndefined => Part0.logLevel this | l => l end))
           line ],
       Return tt).
Proof.
  unfold logging_ready, Part0._writeLog. intros ->.
  intros [(lc & Hlc & Hpath) Hlg]. rewrite Hlc.
  unfold bind, ret, throw, emit. simpl.
  destruct (truthy (get lc "params")) eqn:Ep.
  - destruct (Response.request_path r) as [path|];
      [|exfalso; now apply Hpath].
    simpl. rewrite Hlg. eexists. reflexivity.
  - simpl. rewrite Hlg. eexists. reflexivity.
Qed.

(** X14. With a logger in place and logging ready, part_000 writes exactly
    one log line per request that got a response, after the dispatch: at
    level [error] when the transport rejected with that response (a 404
    included, although the call then returns [null]), and at the client's
    own log level when the transport answered. *)
Theorem response_is_logged_once_at_its_level {Body} (axios : transport Body)
    (JSON_stringify : value -> value) (JSON_stringify_body : Body -> value)
    (this : Part0.client) (logger : Part0.Logger) (endpoint : string)
    (config : Config.t) (r : Response.t Body) :
  Part0.logger this = Some logger ->
  logging_ready this r ->
  let d := part0_dispatched this endpoint config in
  (forall e,
      axios d = Throw e -> Err.response e = Some r ->
      exists line,
        fst (Part0._request axios JSON_stringify JSON_stringify_body this
               endpoint config) = [ Dispatch d; LogCall "error" line ])
  /\ (axios d = Return r ->
      exists line,
        fst (Part0._request axios JSON_stringify JSON_stringify_body this
               endpoint config)
        = [ Dispatch d; LogCall (to_string (Part0.logLevel this)) line ]).
Proof.
  intros Hlg Hlog d. subst d. split.
  - intros e Hax Hr. rewrite part0_request_unfold. cbv zeta. rewrite Hax, Hr.
    destruct (writeLog_logs_once JSON_stringify JSON_stringify_body this logger
                endpoint (part0_dispatched this endpoint config) r
                (VStr "error") Hlg Hlog) as [line ->].
    exists line. reflexivity.
  - intros Hax. rewrite part0_request_unfold. cbv zeta. rewrite Hax.
    destruct (writeLog_logs_once JSON_stringify JSON_stringify_body this logger
                endpoint (part0_dispatched this endpoint config) r
                VUndefined Hlg Hlog) as [line ->].
    exists line. reflexivity.
Qed.

Lemma response_is_logged_once_at_its_level_witness :
  let this :=
    Part0.ArcCre (Some Fixture.with_logging) (Some Fixture.quiet_logger) in
  let config := Config.mk "GET" VUndefined ∅ VUndefined HUndefined VUndefined in
  exists line,
    fst (Part0._request (Fixture.answering Fixture.not_found) Fixture.stringify
           Fixture.stringify_body this "/cre/OFF-1" config)
    = [ Dispatch (part0_dispatched this "/cre/OFF-1" config);
        LogCall "error" line ].
Proof.
  intros this config.
  destruct (response_is_logged_once_at_its_level
              (Fixture.answering Fixture.not_found) Fixture.stringify
              Fixture.stringify_body this Fixture.quiet_logger "/cre/OFF-1"
              config Fixture.not_found) as [Herr _].
  - reflexivity.
  - apply fixture_logging_ready. discriminate.
  - apply (Herr (Fixture.bad_status Fixture.not_found)); reflexivity.
Defined.

Lemma truthy_nonempty (s : string) : s <> "" -> truthy (VStr s) = true.
Proof.
  intros Hs. simpl. destruct (String.eqb s "") eqn:E; [|reflexivity].
  apply String.eqb_eq in E. contradiction.
Qed.

Lemma writeLog_without_config {Body} (JSON_stringify : value -> value)
    (JSON_stringify_body : Body -> value) (this : Part0.client)
    (logger : Part0.Logger) (endpoint : string) (config : Config.t)
    (r : Response.t Body) (level : value) :
  Part0.logger this = Some logger ->
  Part0.loggerConfig this = None ->
  Part0._writeLog JSON_stringify JSON_stringify_body this endpoint config r
    level = ([], Throw (Err.TypeError "url")).
Proof.
  intros Hlg Hlc. unfold Part0._writeLog. rewrite Hlg, Hlc. reflexivity.
Qed.

(** X16. A client of part_000 that has a logger but no [loggerConfig] cannot
    complete any request that gets a response: after the dispatch the log
    write raises a [TypeError] (reading [url] of [undefined]), which replaces
    the body of a successful answer, the transport's error of a failed one
    and the [null] of a 404 alike; only a failure without a response still
    comes out as the transport's own error. *)
Theorem logger_without_config_raises_on_any_response
    {Body} (axios : transport Body)
    (JSON_stringify : value -> value) (JSON_stringify_body : Body -> value)
    (this : Part0.client) (logger : Part0.Logger) (endpoint : string)
    (config : Config.t) :
  Part0.logger this = Some logger ->
  Part0.loggerConfig this = None ->
  let d := part0_dispatched this endpoint config in
  let result :=
    Part0._request axios JSON_stringify JSON_stringify_body this endpoint
      config in
  (forall r, axios d = Return r ->
             result = ([ Dispatch d ], Throw (Err.TypeError "url")))
  /\ (forall e r, axios d = Throw e -> Err.response e = Some r ->
                  result = ([ Dispatch d ], Throw (Err.TypeError "url")))
  /\ (forall e, axios d = Throw e -> Err.response e = None ->
                result = ([ Dispatch d ], Throw e)).
Proof.
  intros Hlg Hlc d result. subst d result.
  rewrite part0_request_unfold. cbv zeta.
  split; [|split].
  - intros r ->. now rewrite (writeLog_without_config _ _ _ logger).
  - intros e r -> ->. now rewrite (writeLog_without_config _ _ _ logger).
  - intros e -> ->. reflexivity.
Qed.

Lemma logger_without_config_raises_on_any_response_witness :
  Part0._request (Fixture.answering Fixture.ok) Fixture.stringify
    Fixture.stringify_body
    (Part0.ArcCre (Some Fixture.credentials) (Some Fixture.quiet_logger))
    "/ping" (Config.mk "GET" VUndefined ∅ VUndefined HUndefined VUndefined)
  = ([ Dispatch
         (part0_dispatched
            (Part0.ArcCre (Some Fixture.credentials)
               (Some Fixture.quiet_logger))
            "/ping"
            (Config.mk "GET" VUndefined ∅ VUndefined HUndefined VUndefined)) ],
     Throw (Err.TypeError "url")).
Proof.
  destruct (logger_without_config_raises_on_any_response
              (Fixture.answering Fixture.ok) Fixture.stringify
              Fixture.stringify_body
              (Part0.ArcCre (Some Fixture.credentials)
                 (Some Fixture.quiet_logger))
              Fixture.quiet_logger "/ping"
              (Config.mk "GET" VUndefined ∅ VUndefined HUndefined VUndefined))
    as (Hok & _).
  - reflexivity.
  - reflexivity.
  - apply (Hok Fixture.ok). reflexivity.
Defined.

(** *** No escaping *)

(** X17. Values are written as they are: a delimiter inside a value is not
    escaped.  In both implementations an instructor whose first name is
    [a|b] and last name [c] serializes to the same line as one whose first
    name is [a] and last name [b|c], so the columns of a line cannot be told
    apart once a value contains the delimiter. *)
Theorem delimiter_in_a_value_is_not_escaped {Body} (part : @Part0.client Body)
    (organizationId batchId classId : value) (record : obj) (a b c : string) :
  get record "type" = VStr "B" ->
  let first : obj :=
    <["firstName" := VStr (a ++ "|" ++ b)]> (<["lastName" := VStr c]> record) in
  let second : obj :=
    <["firstName" := VStr a]> (<["lastName" := VStr (b ++ "|" ++ c)]> record) in
  Lib.createCRE_lines organizationId batchId classId [ first ]
  = Lib.createCRE_lines organizationId batchId classId [ second ]
  /\ Part0.createCRE_lines part organizationId batchId classId [ first ]
     = Part0.createCRE_lines part organizationId batchId classId [ second ].
Proof.
  intros Htype first second.
  assert (Hother : forall (r : obj) (x y : value) (f : string),
             f <> "firstName" -> f <> "lastName" ->
             get (<["firstName" := x]> (<["lastName" := y]> r)) f = get r f).
  { intros r x y f H1 H2. unfold get.
    rewrite !lookup_insert_ne by congruence. reflexivity. }
  assert (Hfirst : forall (r : obj) (x y : value),
             get (<["firstName" := x]> (<["lastName" := y]> r)) "firstName" = x).
  { intros r x y. unfold get. now rewrite lookup_insert_eq. }
  assert (Hlast : forall (r : obj) (x y : value),
             get (<["firstName" := x]> (<["lastName" := y]> r)) "lastName" = y).
  { intros r x y. unfold get.
    rewrite lookup_insert_ne by discriminate. now rewrite lookup_insert_eq. }
  rewrite !lib_lines_shape, !part0_lines_follow_layout.
  unfold Documented.lines, Documented.kind_of. cbn [flat_map].
  subst first second.
  rewrite !(Hother record _ _ "type") by discriminate. rewrite Htype.
  cbn [String.eqb Ascii.eqb Bool.eqb]. cbv iota.
  unfold Documented.line, Documented.fields_plain,
    Documented.fields_with_source, Documented.instructor_fields, join.
  cbn [List.map app].
  rewrite !Hfirst, !Hlast.
  rewrite !(Hother record _ _ "instructorID") by discriminate.
  rewrite !(Hother record _ _ "email") by discriminate.
  cbn [join_item to_string join_strings].
  rewrite !string_app_assoc. split; reflexivity.
Qed.

Lemma delimiter_in_a_value_is_not_escaped_witness :
  Lib.createCRE_lines (VStr "ORG1") (VNum 7) (VNum 42)
    [ <["firstName" := VStr ("Ada" ++ "|" ++ "Mae")]>
        (<["lastName" := VStr "Byron"]> Fixture.instructor) ]
  = Lib.createCRE_lines (VStr "ORG1") (VNum 7) (VNum 42)
      [ <["firstName" := VStr "Ada"]>
          (<["lastName" := VStr ("Mae" ++ "|" ++ "Byron")]> Fixture.instructor) ].
Proof.
  apply (delimiter_in_a_value_is_not_escaped (@Part0.ArcCre string None None)
           (VStr "ORG1") (VNum 7) (VNum 42) Fixture.instructor
           "Ada" "Mae" "Byron").
  vm_compute. reflexivity.
Defined.

(** *** The 404 policy and the log write *)



(** *** Lines of the body *)
















(** *** The log line *)

(** X15. With a logger whose configuration has all four toggles off (or
    absent), the one line part_000 writes is made of the bracketed client
    name and host, the method, the endpoint as the caller gave it, and the
    status with its text, joined by single spaces, an empty method or
    endpoint being dropped: the disabled fields leave no placeholder behind.
    With a method and an endpoint that are not empty this is
    [[name:host] METHOD endpoint STATUS TEXT]. *)
Theorem log_line_with_toggles_off {Body} (JSON_stringify : value -> value)
    (JSON_stringify_body : Body -> value) (this : Part0.client)
    (logger : Part0.Logger) (loggerConfig : obj) (endpoint : string)
    (config : Config.t) (r : Response.t Body) (level : value) :
  Part0.logger this = Some logger ->
  Part0.loggerConfig this = Some loggerConfig ->
  truthy (get loggerConfig "url") = false ->
  truthy (get loggerConfig "params") = false ->
  truthy (get loggerConfig "data") = false ->
  truthy (get loggerConfig "response") = false ->
  let at_level :=
    to_string
      (match level with VUndefined => Part0.logLevel this | l => l end) in
  let head :=
    "[" ++ Part0.name this ++ ":" ++ to_string (Part0.host this) ++ "]" in
  let status :=
    num_to_string (Response.status r) ++ " " ++ Response.statusText r in
  let written :=
    fst (Part0._writeLog JSON_stringify JSON_stringify_body this endpoint
           config r level) in
  written
  = [ LogCall at_level
        (join_strings " "
           (List.filter (fun s => negb (String.eqb s ""))
              [ head; Config.method config; endpoint; status ])) ]
  /\ (Config.method config <> "" ->
      endpoint <> "" ->
      written
      = [ LogCall at_level
            (head ++ " " ++ Config.method config ++ " " ++ endpoint ++ " "
               ++ status) ]).
Proof.
  intros Hlg Hlc Hurl Hparams Hdata Hresp at_level head status written.
  assert (Hgen : written
                 = [ LogCall at_level
                       (join_strings " "
                          (List.filter (fun s => negb (String.eqb s ""))
                             [ head; Config.method config; endpoint; status ])) ]).
  { subst written at_level head status.
    unfold Part0._writeLog. rewrite Hlg, Hlc.
    unfold bind, ret, throw, emit. cbn [fst snd app].
    rewrite Hurl, Hparams, Hdata, Hresp. cbn [fst snd app].
    unfold compact, join. cbn [List.filter truthy].
    assert (Hs : String.eqb (num_to_string (Response.status r) ++ " "
                               ++ Response.statusText r) "" = false).
    { apply String.eqb_neq.
      destruct (num_to_string (Response.status r)); discriminate. }
    rewrite Hs.
    change (String.eqb ("[" ++ Part0.name this ++ ":"
                          ++ to_string (Part0.host this) ++ "]") "")
      with false.
    destruct (String.eqb (Config.method config) "");
      destruct (String.eqb endpoint ""); cbn [negb List.map join_item to_string];
      destruct (logger _ _); reflexivity. }
  split; [exact Hgen|].
  intros Hm He. rewrite Hgen. subst head status.
  apply String.eqb_neq in Hm, He. cbn [List.filter].
  rewrite Hm, He.
  assert (Hs : String.eqb (num_to_string (Response.status r) ++ " "
                             ++ Response.statusText r) "" = false).
  { apply String.eqb_neq.
    destruct (num_to_string (Response.status r)); discriminate. }
  rewrite Hs.
  change (String.eqb ("[" ++ Part0.name this ++ ":"
                        ++ to_string (Part0.host this) ++ "]") "")
    with false.
  reflexivity.
Qed.

Lemma log_line_with_toggles_off_witness :
  fst (Part0._writeLog Fixture.stringify Fixture.stringify_body
         (Part0.ArcCre (Some Fixture.terse_logging) (Some Fixture.quiet_logger))
         ""
         (Config.mk "GET" VUndefined ∅ VUndefined HUndefined VUndefined)
         Fixture.ok VUndefined)
  = [ LogCall "verbose"
        (join_strings " "
           [ "[" ++ "arc-cre" ++ ":" ++ QA_HOST ++ "]"; "GET";
             "200" ++ " " ++ "OK" ]) ].
Proof.
  apply (log_line_with_toggles_off Fixture.stringify Fixture.stringify_body
           (Part0.ArcCre (Some Fixture.terse_logging)
              (Some Fixture.quiet_logger))
           Fixture.quiet_logger ∅ ""
           (Config.mk "GET" VUndefined ∅ VUndefined HUndefined VUndefined)
           Fixture.ok VUndefined);
    reflexivity.
Defined.
